(** * Will.IAM: authorization engine, lifecycle and middlewares

    A shallow embedding of the Go sources

      - usecases/service_accounts.go      (use cases over the repositories)
      - api/service_accounts_handlers.go  (get / create / update handlers)
      - api/auth_middleware.go            (Authorization header middleware)
      - pkg/http/middleware.go            (embeddable remote-check middleware)

    Go strings are [string], slices are [list], maps are [gmap], an
    [(T, error)] result is an [outcome T], and code that talks to the
    database threads the [Store] explicitly. *)

From Stdlib Require Import Ascii.
From stdpp Require Import base strings list gmap.

Open Scope string_scope.

(** ** Go's [strings] package *)

(** [strings.Split(s, sep)] for a non-empty [sep], which is the case at every
    call site: the pieces of [s] between the non-overlapping occurrences of
    [sep], scanned from the left.  [skip] counts the bytes of a separator that
    are still to be consumed and [cur] is the piece being read. *)
Fixpoint splitAux (sep : string) (skip : nat) (cur s : string) : list string :=
  match s with
  | EmptyString => [cur]
  | String c s' =>
      match skip with
      | S k => splitAux sep k cur s'
      | O =>
          if String.prefix sep s
          then cur :: splitAux sep (String.length sep - 1) "" s'
          else splitAux sep 0 (cur ++ String c "") s'
      end
  end.

Definition strings_Split (s sep : string) : list string := splitAux sep 0 "" s.

(** ** Results of fallible Go code *)

(** The error kinds of package [errors] that the sources test for, and the
    rest (storage, transport, decoding) as [OtherError]. *)
Inductive error : Type :=
| EntityNotFoundError
| UserDoesntHaveAllPermissionsError
| UserDoesntHavePermissionError (permission : string)
| MalformedPermissionError (permission : string)
| InvalidAuthorizationTypeError
| OtherError (msg : string).

(** A Go call either returns a value, returns a non-nil [error], or panics. *)
Inductive outcome (A : Type) : Type :=
| Ok (a : A)
| Err (e : error)
| Panic (msg : string).
Arguments Ok {A} a.
Arguments Err {A} e.
Arguments Panic {A} msg.

Definition isOk {A} (o : outcome A) : bool :=
  match o with Ok _ => true | _ => false end.

(** net/http status codes used by the sources. *)
Definition StatusOK : nat := 200.
Definition StatusCreated : nat := 201.
Definition StatusUnauthorized : nat := 401.
Definition StatusForbidden : nat := 403.
Definition StatusUnprocessableEntity : nat := 422.
Definition StatusInternalServerError : nat := 500.

(** Modelled from the spec: [StatusCode()] of
    [errors.UserDoesntHaveAllPermissionsError]; package [errors] is not among
    the sources, section 7 gives the error its 403-class status. *)
Definition UserDoesntHaveAllPermissionsError_StatusCode : nat := StatusForbidden.

(** ** Package models *)

Module OwnershipLevel.
(** Modelled from the spec: [models.OwnershipLevel], the ordered enum of
    section 3, [Lender < Owner]. *)
Inductive t : Type := Lender | Owner.

(** Modelled from the spec: the order of the levels, [Owner] above every
    other level (section 3). *)
Definition le (a b : t) : bool :=
  match a, b with
  | Owner, Lender => false
  | _, _ => true
  end.

(** Modelled from the spec: the wire names of the levels (section 6). *)
Definition String (l : t) : string :=
  match l with Lender => "Lender" | Owner => "Owner" end.

(** Modelled from the spec: the recognised levels (sections 4.1 and 6). *)
Definition parse (s : string) : option t :=
  if bool_decide (s = "Owner") then Some Owner
  else if bool_decide (s = "Lender") then Some Lender
  else None.

#[global] Instance eq_dec : EqDecision t.
Proof. solve_decision. Defined.
End OwnershipLevel.

Module Permission.
(** Modelled from the spec: [models.Permission] (section 3); the sources
    read and write [RoleID], [OwnershipLevel] and [Alias]. *)
Record t : Type := mk {
  RoleID : string;
  Service : string;
  OwnershipLevel : OwnershipLevel.t;
  Action : string;
  Resource : string;
  Alias : string
}.

Definition setRoleID (r : string) (p : t) : t :=
  mk r (Service p) (OwnershipLevel p) (Action p) (Resource p) (Alias p).
Definition setOwnershipLevel (l : OwnershipLevel.t) (p : t) : t :=
  mk (RoleID p) (Service p) l (Action p) (Resource p) (Alias p).
Definition setAlias (a : string) (p : t) : t :=
  mk (RoleID p) (Service p) (OwnershipLevel p) (Action p) (Resource p) a.

(** Modelled from the spec: the zero value of the struct, what
    [make([]Permission, n)] is filled with; the zero ownership level is
    taken to be the least one. *)
Definition zero : t := mk "" "" OwnershipLevel.Lender "" "" "".

#[global] Instance eq_dec : EqDecision t.
Proof. solve_decision. Defined.

(** Modelled from the spec: the canonical string of section 4.1,
    [service::ownershipLevel::action::resource]. *)
Definition String (p : t) : string :=
  Service p ++ "::" ++ OwnershipLevel.String (OwnershipLevel p) ++ "::"
    ++ Action p ++ "::" ++ Resource p.

(** Modelled from the spec: the resource clause of section 4.1.  The held
    resource is the wildcard, or the requested resource itself, or an
    ancestor of it: the requested path starts with the held one followed
    by the path delimiter [/]. *)
Definition resourceCovers (held requested : string) : bool :=
  bool_decide (held = "*")
  || bool_decide (held = requested)
  || String.prefix (held ++ "/") requested.

(** Modelled from the spec: one held permission [h] satisfies the
    requested [p] (the four conditions of section 4.1). *)
Definition satisfies (h p : t) : bool :=
  bool_decide (Service h = Service p)
  && bool_decide (Action h = Action p)
  && OwnershipLevel.le (OwnershipLevel p) (OwnershipLevel h)
  && resourceCovers (Resource h) (Resource p).

(** Modelled from the spec: [p.IsPresent(held)] of models/permission.go,
    which is not among the sources; section 4.1: some held permission
    satisfies [p]. *)
Definition IsPresent (p : t) (held : list t) : bool :=
  existsb (fun h => satisfies h p) held.
End Permission.

(** Modelled from the spec: [models.BuildPermission] (section 4.1, Parse):
    split on [::], exactly four non-empty fields, a recognised ownership
    level; anything else is a [MalformedPermissionError]. *)
Definition BuildPermission (str : string) : outcome Permission.t :=
  match strings_Split str "::" with
  | [service; level; action; resource] =>
      if bool_decide (service = "") || bool_decide (level = "")
         || bool_decide (action = "") || bool_decide (resource = "")
      then Err (MalformedPermissionError str)
      else match OwnershipLevel.parse level with
           | Some l => Ok (Permission.mk "" service l action resource "")
           | None => Err (MalformedPermissionError str)
           end
  | _ => Err (MalformedPermissionError str)
  end.

(** Modelled from the spec: [models.BuildPermissions], all or nothing, the
    first malformed string is the error. *)
Fixpoint BuildPermissions (strs : list string) : outcome (list Permission.t) :=
  match strs with
  | [] => Ok []
  | s :: rest =>
      match BuildPermission s with
      | Ok p =>
          match BuildPermissions rest with
          | Ok ps => Ok (p :: ps)
          | Err e => Err e
          | Panic m => Panic m
          end
      | Err e => Err e
      | Panic m => Panic m
      end
  end.

(** Modelled from the spec: [models.AuthenticationType], a string type with
    the two values of section 3; the wire names are those of the message of
    [Validate].  The zero value of the type is the empty string. *)
Module AuthenticationTypes.
Definition OAuth2 : string := "oauth2".
Definition KeyPair : string := "keypair".
End AuthenticationTypes.

(** Modelled from the spec: [AuthenticationType.Valid], one of the two
    values (section 4.3, Create, step 2). *)
Definition AuthenticationType_Valid (t : string) : bool :=
  bool_decide (t = AuthenticationTypes.OAuth2)
  || bool_decide (t = AuthenticationTypes.KeyPair).

Module ServiceAccount.
(** Modelled from the spec: [models.ServiceAccount] (section 3), with the
    fields the sources read and write. *)
Record t : Type := mk {
  ID : string;
  Name : string;
  KeyID : string;
  KeySecret : string;
  Email : string;
  Picture : string;
  BaseRoleID : string;
  AuthenticationType : string
}.

Definition setID (v : string) (sa : t) : t :=
  mk v (Name sa) (KeyID sa) (KeySecret sa) (Email sa) (Picture sa)
     (BaseRoleID sa) (AuthenticationType sa).
Definition setName (v : string) (sa : t) : t :=
  mk (ID sa) v (KeyID sa) (KeySecret sa) (Email sa) (Picture sa)
     (BaseRoleID sa) (AuthenticationType sa).
Definition setEmail (v : string) (sa : t) : t :=
  mk (ID sa) (Name sa) (KeyID sa) (KeySecret sa) v (Picture sa)
     (BaseRoleID sa) (AuthenticationType sa).
Definition setPicture (v : string) (sa : t) : t :=
  mk (ID sa) (Name sa) (KeyID sa) (KeySecret sa) (Email sa) v
     (BaseRoleID sa) (AuthenticationType sa).
Definition setBaseRoleID (v : string) (sa : t) : t :=
  mk (ID sa) (Name sa) (KeyID sa) (KeySecret sa) (Email sa) (Picture sa)
     v (AuthenticationType sa).

#[global] Instance eq_dec : EqDecision t.
Proof. solve_decision. Defined.
End ServiceAccount.

Module Role.
(** Modelled from the spec: [models.Role] (section 3). *)
Record t : Type := mk { ID : string; Name : string; IsBaseRole : bool }.
Definition setID (v : string) (r : t) : t := mk v (Name r) (IsBaseRole r).

#[global] Instance eq_dec : EqDecision t.
Proof. solve_decision. Defined.
End Role.

Module RoleBinding.
(** Modelled from the spec: [models.RoleBinding] (section 3). *)
Record t : Type := mk { ServiceAccountID : string; RoleID : string }.

#[global] Instance eq_dec : EqDecision t.
Proof. solve_decision. Defined.
End RoleBinding.

(** The randomness one account creation draws: the UUID of
    [createServiceAccount] and the generated key pair of
    [models.BuildKeyPairServiceAccount]. *)
Record Entropy : Type := {
  newUUID : string;
  newKeyID : string;
  newKeySecret : string
}.

(** Modelled from the spec: [models.BuildOAuth2ServiceAccount], an account
    of type [OAuth2] with the name and the email (sections 3 and 4.3). *)
Definition BuildOAuth2ServiceAccount (name email : string) : ServiceAccount.t :=
  ServiceAccount.mk "" name "" "" email "" "" AuthenticationTypes.OAuth2.

(** Modelled from the spec: [models.BuildKeyPairServiceAccount], an account
    of type [KeyPair] with the name and a generated key pair (sections 3
    and 4.3). *)
Definition BuildKeyPairServiceAccount (rnd : Entropy) (name : string)
  : ServiceAccount.t :=
  ServiceAccount.mk "" name (newKeyID rnd) (newKeySecret rnd) "" "" ""
                    AuthenticationTypes.KeyPair.

(** Modelled from the spec: [models.AccessTokenAuth], the result of an
    OAuth2 authentication (section 3). *)
Module AccessTokenAuth.
Record t : Type := mk {
  ServiceAccountID : string;
  AccessToken : string;
  Email : string
}.
End AccessTokenAuth.

(** Modelled from the spec: what [oauth2.Provider.Authenticate] returns on
    success (section 4.4). *)
Module AuthResult.
Record t : Type := mk {
  AccessToken : string;
  Email : string;
  Picture : string
}.
End AuthResult.

(** ** The storage collaborator *)

(** Modelled from the spec: the storage of section 3, the rows of the four
    tables, and the identifiers the database will hand out next (its
    [uuid] default for a row inserted without an id). *)
Record Store : Type := mkStore {
  service_accounts : list ServiceAccount.t;
  roles : list Role.t;
  role_bindings : list RoleBinding.t;
  permissions : list Permission.t;
  idSupply : list string
}.

(** [repositories.All] as the sources call it (its declaration is not
    among them): a read returns a value, a write returns the store it
    leaves. *)
Record All : Type := {
  ServiceAccounts_Get : string -> Store -> outcome ServiceAccount.t;
  ServiceAccounts_ForEmail : string -> Store -> outcome ServiceAccount.t;
  ServiceAccounts_ForKeyPair :
    string -> string -> Store -> outcome ServiceAccount.t;
  ServiceAccounts_Create : ServiceAccount.t -> Store -> outcome Store;
  ServiceAccounts_Update : ServiceAccount.t -> Store -> outcome Store;
  ServiceAccounts_DropBindings : string -> Store -> outcome Store;
  Roles_Create : Role.t -> Store -> outcome (Role.t * Store);
  Roles_Bind : RoleBinding.t -> Store -> outcome Store;
  Roles_DropPermissions : string -> Store -> outcome Store;
  Permissions_Create : Permission.t -> Store -> outcome Store;
  Permissions_ForRole : string -> Store -> outcome (list Permission.t);
  Permissions_ForServiceAccount :
    string -> Store -> outcome (list Permission.t)
}.

(** Code that runs against the store: it ends in an outcome and leaves a
    store, also when it fails half way. *)
Definition M (A : Type) : Type := Store -> outcome A * Store.

Definition ret {A} (a : A) : M A := fun st => (Ok a, st).

Definition bind {A B} (m : M A) (k : A -> M B) : M B :=
  fun st =>
    match m st with
    | (Ok a, st') => k a st'
    | (Err e, st') => (Err e, st')
    | (Panic msg, st') => (Panic msg, st')
    end.

Definition fail {A} (e : error) : M A := fun st => (Err e, st).
Definition panic {A} (msg : string) : M A := fun st => (Panic msg, st).

Declare Scope go_scope.
Delimit Scope go_scope with go.
Notation "x <- m ;; k" := (bind m (fun x => k))
  (at level 100, m at next level, right associativity) : go_scope.
Notation "m ;;; k" := (bind m (fun _ => k))
  (at level 100, right associativity) : go_scope.

(** A repository read, and a repository write, as steps of [M]. *)
Definition read {A} (f : Store -> outcome A) : M A := fun st => (f st, st).

Definition write (f : Store -> outcome Store) : M unit :=
  fun st =>
    match f st with
    | Ok st' => (Ok tt, st')
    | Err e => (Err e, st)
    | Panic msg => (Panic msg, st)
    end.

Definition writeRet {A} (f : Store -> outcome (A * Store)) : M A :=
  fun st =>
    match f st with
    | Ok (a, st') => (Ok a, st')
    | Err e => (Err e, st)
    | Panic msg => (Panic msg, st)
    end.

(** [for _, x := range xs { if err := body(x); err != nil { return err } }] *)
Fixpoint forEach {A} (body : A -> M unit) (xs : list A) : M unit :=
  match xs with
  | [] => ret tt
  | x :: rest => bind (body x) (fun _ => forEach body rest)
  end.

(** Modelled from the spec: [repo.WithPGTx(ctx, fn)] of package
    repositories, the [WithTransaction(fn)] primitive of section 6: [fn]
    receives the repositories bound to the transaction and runs against the
    store; its writes are kept when it returns nil, and any failure aborts
    the whole transaction and leaves the prior state. *)
Definition WithPGTx {A} (repo : All) (fn : All -> M A) : M A :=
  fun st =>
    match fn repo st with
    | (Ok a, st') => (Ok a, st')
    | (Err e, _) => (Err e, st)
    | (Panic msg, _) => (Panic msg, st)
    end.

(** ** Package usecases (usecases/service_accounts.go) *)

Open Scope go_scope.

(** [ServiceAccountWithNested]: the data of a create or update request. *)
Record ServiceAccountWithNested : Type := mkSawn {
  ID : string;
  Name : string;
  Email : string;
  Picture : string;
  PermissionsStrings : list string;
  PermissionsAliases : gmap string string;
  Permissions : list Permission.t;
  RolesIDs : list string;
  Roles : list Role.t;
  AuthenticationType : string
}.

Definition sawn_setID (v : string) (s : ServiceAccountWithNested)
  : ServiceAccountWithNested :=
  mkSawn v (Name s) (Email s) (Picture s) (PermissionsStrings s)
         (PermissionsAliases s) (Permissions s) (RolesIDs s) (Roles s)
         (AuthenticationType s).

Definition sawn_setPermissions (v : list Permission.t)
  (s : ServiceAccountWithNested) : ServiceAccountWithNested :=
  mkSawn (ID s) (Name s) (Email s) (Picture s) (PermissionsStrings s)
         (PermissionsAliases s) v (RolesIDs s) (Roles s)
         (AuthenticationType s).

(** Modelled from the spec: [models.Validation], the field errors
    collected so far (section 7), valid when there is none. *)
Definition Validation : Type := list (string * string).

(** Modelled from the spec: [Validation.Valid]. *)
Definition Validation_Valid (v : Validation) : bool :=
  match v with [] => true | _ => false end.

(** [ServiceAccountWithNested.Validate] *)
Definition Validate (sawn : ServiceAccountWithNested) : Validation :=
  ((if bool_decide (Name sawn = "") then [("name", "required")] else [])
   ++ (if negb (AuthenticationType_Valid (AuthenticationType sawn))
       then [("authenticatonType", "must be oauth2 or keypair")] else [])
   ++ (if bool_decide (AuthenticationType sawn = AuthenticationTypes.OAuth2)
          && bool_decide (Email sawn = "")
       then [("email", "required")] else []))%list.

(** The receiver [serviceAccounts]: the repositories and the OAuth2
    provider (an external service: its answer to a token is an input). *)
Record serviceAccounts : Type := {
  repo : All;
  oauth2Provider : string -> outcome AuthResult.t
}.

(** [createServiceAccount]: the account gets a fresh UUID, its base role is
    created first, then the account row, then the binding of the two.  The
    account is passed by pointer: the value returned is what the caller's
    variable holds afterwards. *)
Definition createServiceAccount (rnd : Entropy) (sa : ServiceAccount.t)
  (repo : All) : M ServiceAccount.t :=
  let sa := ServiceAccount.setID (newUUID rnd) sa in
  let r := Role.mk "" ("service-account:" ++ ServiceAccount.ID sa) true in
  r <- writeRet (Roles_Create repo r) ;;
  let sa := ServiceAccount.setBaseRoleID (Role.ID r) sa in
  write (ServiceAccounts_Create repo sa) ;;;
  write (Roles_Bind repo (RoleBinding.mk (ServiceAccount.ID sa) (Role.ID r))) ;;;
  ret sa.

(** [serviceAccounts.Create] *)
Definition Create (sas : serviceAccounts) (rnd : Entropy)
  (sa : ServiceAccount.t) : M ServiceAccount.t :=
  WithPGTx (repo sas) (fun repo => createServiceAccount rnd sa repo).

(** The loop [for i := range sawn.Permissions] of the two nested writers:
    each permission is attached to the base role and inserted; the slice is
    written in place, so the permissions come back with their role. *)
Fixpoint createPermissions (repo : All) (baseRoleID : string)
  (ps : list Permission.t) : M (list Permission.t) :=
  match ps with
  | [] => ret []
  | p :: rest =>
      let p := Permission.setRoleID baseRoleID p in
      write (Permissions_Create repo p) ;;;
      rest' <- createPermissions repo baseRoleID rest ;;
      ret (p :: rest')
  end.

(** The closure that [CreateWithNested] hands to [WithPGTx].  With an
    authentication type that is neither value, [sa] is still nil when
    [sa.ID] is read. *)
Definition createWithNestedFn (rnd : Entropy)
  (sawn : ServiceAccountWithNested) (repo : All) : M ServiceAccountWithNested :=
  sa <- (if bool_decide (AuthenticationType sawn = AuthenticationTypes.OAuth2)
         then sa <- createServiceAccount rnd
                      (BuildOAuth2ServiceAccount (Name sawn) (Email sawn))
                      repo ;;
              ret (Some sa)
         else if bool_decide
                   (AuthenticationType sawn = AuthenticationTypes.KeyPair)
         then sa <- createServiceAccount rnd
                      (BuildKeyPairServiceAccount rnd (Name sawn)) repo ;;
              ret (Some sa)
         else ret None) ;;
  match sa with
  | None => panic "invalid memory address or nil pointer dereference"
  | Some sa =>
      let sawn := sawn_setID (ServiceAccount.ID sa) sawn in
      forEach (fun roleID =>
                 write (Roles_Bind repo (RoleBinding.mk (ID sawn) roleID)))
              (RolesIDs sawn) ;;;
      ps <- createPermissions repo (ServiceAccount.BaseRoleID sa)
                              (Permissions sawn) ;;
      ret (sawn_setPermissions ps sawn)
  end.

(** [serviceAccounts.CreateWithNested] *)
Definition CreateWithNested (sas : serviceAccounts) (rnd : Entropy)
  (sawn : ServiceAccountWithNested) : M ServiceAccountWithNested :=
  WithPGTx (repo sas) (createWithNestedFn rnd sawn).

(** The closure that [UpdateWithNested] hands to [WithPGTx]. *)
Definition updateWithNestedFn (sawn : ServiceAccountWithNested) (repo : All)
  : M ServiceAccountWithNested :=
  sa <- read (ServiceAccounts_Get repo (ID sawn)) ;;
  let sa := ServiceAccount.setName (Name sawn) sa in
  let sa := ServiceAccount.setEmail (Name sawn) sa in
  write (ServiceAccounts_Update repo sa) ;;;
  write (ServiceAccounts_DropBindings repo (ID sawn)) ;;;
  forEach (fun roleID =>
             if bool_decide (roleID = ServiceAccount.BaseRoleID sa)
             then ret tt
             else write (Roles_Bind repo
                           (RoleBinding.mk (ServiceAccount.ID sa) roleID)))
          (RolesIDs sawn) ;;;
  write (Roles_DropPermissions repo (ServiceAccount.BaseRoleID sa)) ;;;
  ps <- createPermissions repo (ServiceAccount.BaseRoleID sa)
                          (Permissions sawn) ;;
  ret (sawn_setPermissions ps sawn).

(** [serviceAccounts.UpdateWithNested] *)
Definition UpdateWithNested (sas : serviceAccounts)
  (sawn : ServiceAccountWithNested) : M ServiceAccountWithNested :=
  WithPGTx (repo sas) (updateWithNestedFn sawn).

(** [serviceAccountGetPermissions] and [serviceAccounts.GetPermissions] *)
Definition serviceAccountGetPermissions (repo : All)
  (serviceAccountID : string) : M (list Permission.t) :=
  read (Permissions_ForServiceAccount repo serviceAccountID).

Definition GetPermissions (sas : serviceAccounts) (serviceAccountID : string)
  : M (list Permission.t) :=
  serviceAccountGetPermissions (repo sas) serviceAccountID.

(** [serviceAccounts.HasPermissions]: one boolean per requested permission. *)
Definition HasPermissions (sas : serviceAccounts) (serviceAccountID : string)
  (permissions : list Permission.t) : M (list bool) :=
  saPermissions <- GetPermissions sas serviceAccountID ;;
  ret (map (fun p => Permission.IsPresent p saPermissions) permissions).

(** The closing loop of [HasAllOwnerPermissions]:
    [for i := range has { if !has[i] { return false, nil } }; return true, nil] *)
Fixpoint allHas (has : list bool) : bool :=
  match has with
  | [] => true
  | b :: rest => if negb b then false else allHas rest
  end.

(** [serviceAccounts.HasAllOwnerPermissions], on slice values. *)
Definition HasAllOwnerPermissions (sas : serviceAccounts)
  (serviceAccountID : string) (permissions : list Permission.t) : M bool :=
  let psCpy :=
    map (Permission.setOwnershipLevel OwnershipLevel.Owner) permissions in
  has <- HasPermissions sas serviceAccountID psCpy ;;
  ret (allHas has).

(** The loop of [HasAllOwnerRolesPermissions]: [ps = append(ps, rps...)]. *)
Fixpoint rolesPermissions (repo : All) (rolesIDs : list string)
  (ps : list Permission.t) : M (list Permission.t) :=
  match rolesIDs with
  | [] => ret ps
  | roleID :: rest =>
      rps <- read (Permissions_ForRole repo roleID) ;;
      rolesPermissions repo rest (ps ++ rps)%list
  end.

(** [serviceAccounts.HasAllOwnerRolesPermissions] *)
Definition HasAllOwnerRolesPermissions (sas : serviceAccounts)
  (saID : string) (rolesIDs : list string) : M bool :=
  ps <- rolesPermissions (repo sas) rolesIDs [] ;;
  HasAllOwnerPermissions sas saID ps.

(** [serviceAccounts.AuthenticateAccessToken] *)
Definition AuthenticateAccessToken (sas : serviceAccounts) (rnd : Entropy)
  (accessToken : string) : M AccessTokenAuth.t :=
  authResult <- read (fun _ => oauth2Provider sas accessToken) ;;
  fun st =>
    let done (sa : ServiceAccount.t) : M AccessTokenAuth.t :=
      ret (AccessTokenAuth.mk (ServiceAccount.ID sa)
             (AuthResult.AccessToken authResult) (AuthResult.Email authResult)) in
    match ServiceAccounts_ForEmail (repo sas) (AuthResult.Email authResult) st with
    | Err EntityNotFoundError =>
        let sa := ServiceAccount.mk "" (AuthResult.Email authResult) "" ""
                    (AuthResult.Email authResult) (AuthResult.Picture authResult)
                    "" "" in
        (sa <- Create sas rnd sa ;; done sa) st
    | Err e => (Err e, st)
    | Panic msg => (Panic msg, st)
    | Ok sa =>
        if negb (bool_decide (AuthResult.Picture authResult = ""))
           && negb (bool_decide
                      (AuthResult.Picture authResult = ServiceAccount.Picture sa))
        then
          let sa := ServiceAccount.setPicture (AuthResult.Picture authResult) sa in
          (write (ServiceAccounts_Update (repo sas) sa) ;;; done sa) st
        else done sa st
    end.

(** [serviceAccounts.AuthenticateKeyPair] *)
Definition AuthenticateKeyPair (sas : serviceAccounts)
  (keyID keySecret : string) : M string :=
  sa <- read (ServiceAccounts_ForKeyPair (repo sas) keyID keySecret) ;;
  ret (ServiceAccount.ID sa).

(** *** [HasAllOwnerPermissions] on the backing arrays

    A Go slice is a view on a backing array, and a callee that writes
    [s[i]] writes the caller's array.  Here the arrays live in a heap of
    cells and a slice is the address of its cell. *)
Module Mem.
Definition addr : Type := nat.
Definition heap : Type := list (list Permission.t).

(** [make([]models.Permission, n)]: a fresh array of zero values. *)
Definition make (n : nat) (h : heap) : addr * heap :=
  (length h, (h ++ [replicate n Permission.zero])%list).

Definition len (a : addr) (h : heap) : nat :=
  match h !! a with Some cell => length cell | None => 0 end.

(** [s[i]] as a value; out of range is the run-time panic. *)
Definition load (a : addr) (i : nat) (h : heap) : outcome Permission.t :=
  match h !! a with
  | Some cell =>
      match cell !! i with
      | Some p => Ok p
      | None => Panic "index out of range"
      end
  | None => Panic "index out of range"
  end.

(** [s[i] = p] *)
Definition store (a : addr) (i : nat) (p : Permission.t) (h : heap)
  : outcome heap :=
  match h !! a with
  | Some cell =>
      if bool_decide (i < length cell)
      then Ok (<[a := <[i := p]> cell]> h)
      else Panic "index out of range"
  | None => Panic "index out of range"
  end.

(** The first loop of [HasAllOwnerPermissions], for the given indices:
    [psCpy[i] = permissions[i]; psCpy[i].OwnershipLevel = Owner]. *)
Fixpoint copyAsOwner (permissions psCpy : addr) (indices : list nat)
  (h : heap) : outcome heap :=
  match indices with
  | [] => Ok h
  | i :: rest =>
      match load permissions i h with
      | Ok p =>
          match store psCpy i p h with
          | Ok h1 =>
              match load psCpy i h1 with
              | Ok q =>
                  match store psCpy i
                          (Permission.setOwnershipLevel OwnershipLevel.Owner q)
                          h1 with
                  | Ok h2 => copyAsOwner permissions psCpy rest h2
                  | Err e => Err e
                  | Panic m => Panic m
                  end
              | Err e => Err e
              | Panic m => Panic m
              end
          | Err e => Err e
          | Panic m => Panic m
          end
      | Err e => Err e
      | Panic m => Panic m
      end
  end.

(** [HasPermissions] reading its argument through the heap. *)
Definition HasPermissions (sas : serviceAccounts) (serviceAccountID : string)
  (permissions : addr) (h : heap) : M (list bool) :=
  saPermissions <- GetPermissions sas serviceAccountID ;;
  match h !! permissions with
  | Some cell =>
      ret (map (fun p => Permission.IsPresent p saPermissions) cell)
  | None => ret []
  end.

(** [serviceAccounts.HasAllOwnerPermissions]: the answer, and the heap the
    call leaves behind. *)
Definition HasAllOwnerPermissions (sas : serviceAccounts)
  (serviceAccountID : string) (permissions : addr) (h : heap)
  : M (bool * heap) :=
  let n := len permissions h in
  let '(psCpy, h) := make n h in
  match copyAsOwner permissions psCpy (seq 0 n) h with
  | Ok h =>
      has <- HasPermissions sas serviceAccountID psCpy h ;;
      ret (allHas has, h)
  | Err e => fail e
  | Panic m => panic m
  end.
End Mem.

(** Whether the store binds the account to the role. *)
Definition bound (st : Store) (saID roleID : string) : bool :=
  existsb (fun b => bool_decide (b = RoleBinding.mk saID roleID))
          (role_bindings st).

(** ** The relational store

    Modelled from the spec: package repositories is not among the sources.
    Sections 3, 4.2, 4.3 and 6 give the operations their meaning: generic
    create, read and update per entity, the lookups [ForEmail],
    [ForKeyPair], [ForRole] and [ForServiceAccount], and the two drops. *)
Module PG.
(** Modelled from the spec: a storage failure (section 7). *)
Definition storageError {A} (msg : string) : outcome A :=
  Err (OtherError msg).

(** Modelled from the spec: a lookup that finds nothing is an
    [EntityNotFoundError] (section 7). *)
Definition findAccount (f : ServiceAccount.t -> bool) (st : Store)
  : outcome ServiceAccount.t :=
  match List.find f (service_accounts st) with
  | Some sa => Ok sa
  | None => Err EntityNotFoundError
  end.

(** Modelled from the spec: [ServiceAccounts.Get], lookup by id. *)
Definition Get (id : string) : Store -> outcome ServiceAccount.t :=
  findAccount (fun sa => bool_decide (ServiceAccount.ID sa = id)).

(** Modelled from the spec: [ServiceAccounts.ForEmail] (section 4.4). *)
Definition ForEmail (email : string) : Store -> outcome ServiceAccount.t :=
  findAccount (fun sa => bool_decide (ServiceAccount.Email sa = email)).

(** Modelled from the spec: [ServiceAccounts.ForKeyPair], exact match of
    the key id and the key secret (section 4.4). *)
Definition ForKeyPair (keyID keySecret : string)
  : Store -> outcome ServiceAccount.t :=
  findAccount (fun sa =>
    bool_decide (ServiceAccount.KeyID sa = keyID)
    && bool_decide (ServiceAccount.KeySecret sa = keySecret)).

(** Modelled from the spec: [ServiceAccounts.Create], generic create; ids
    are keys, and the email is unique among OAuth2 accounts (section 3). *)
Definition CreateAccount (sa : ServiceAccount.t) (st : Store)
  : outcome Store :=
  if existsb (fun x => bool_decide (ServiceAccount.ID x = ServiceAccount.ID sa))
             (service_accounts st)
  then storageError "duplicate service account id"
  else if bool_decide
            (ServiceAccount.AuthenticationType sa = AuthenticationTypes.OAuth2)
          && existsb
               (fun x =>
                  bool_decide (ServiceAccount.AuthenticationType x
                               = AuthenticationTypes.OAuth2)
                  && bool_decide (ServiceAccount.Email x = ServiceAccount.Email sa))
               (service_accounts st)
  then storageError "duplicate email"
  else Ok (mkStore (service_accounts st ++ [sa])%list (roles st)
                   (role_bindings st) (permissions st) (idSupply st)).

(** Modelled from the spec: [ServiceAccounts.Update], generic update of
    the row of that id. *)
Definition UpdateAccount (sa : ServiceAccount.t) (st : Store)
  : outcome Store :=
  Ok (mkStore
        (map (fun x =>
                if bool_decide (ServiceAccount.ID x = ServiceAccount.ID sa)
                then sa else x)
             (service_accounts st))
        (roles st) (role_bindings st) (permissions st) (idSupply st)).

(** Modelled from the spec: whether [roleID] is the base role of the
    account [saID] (section 3, [baseRoleID]). *)
Definition isBaseRoleOf (st : Store) (saID roleID : string) : bool :=
  match Get saID st with
  | Ok sa => bool_decide (roleID = ServiceAccount.BaseRoleID sa)
  | _ => false
  end.

(** Modelled from the spec: [ServiceAccounts.DropBindings]; every binding
    of the account goes, except the one to its base role (section 3:
    replacing bindings never removes the base-role binding). *)
Definition DropBindings (saID : string) (st : Store) : outcome Store :=
  Ok (mkStore (service_accounts st) (roles st)
        (List.filter (fun b =>
                   negb (bool_decide (RoleBinding.ServiceAccountID b = saID))
                   || isBaseRoleOf st saID (RoleBinding.RoleID b))
                (role_bindings st))
        (permissions st) (idSupply st)).

(** Modelled from the spec: [Roles.Create], generic create; the role gets
    the next identifier of the database, which the caller reads back. *)
Definition CreateRole (r : Role.t) (st : Store) : outcome (Role.t * Store) :=
  match idSupply st with
  | [] => storageError "no identifier"
  | id :: supply =>
      if existsb (fun x => bool_decide (Role.ID x = id)) (roles st)
      then storageError "duplicate role id"
      else
        let r := Role.setID id r in
        Ok (r, mkStore (service_accounts st) (roles st ++ [r])%list
                       (role_bindings st) (permissions st) supply)
  end.

(** Modelled from the spec: [Roles.Bind], one more binding (section 3). *)
Definition Bind (b : RoleBinding.t) (st : Store) : outcome Store :=
  Ok (mkStore (service_accounts st) (roles st)
              (role_bindings st ++ [b])%list (permissions st) (idSupply st)).

(** Modelled from the spec: [Roles.DropPermissions], every permission of
    the role goes (section 4.3, Update, step 3). *)
Definition DropPermissions (roleID : string) (st : Store) : outcome Store :=
  Ok (mkStore (service_accounts st) (roles st) (role_bindings st)
        (List.filter (fun p => negb (bool_decide (Permission.RoleID p = roleID)))
                (permissions st))
        (idSupply st)).

(** Modelled from the spec: [Permissions.Create], generic create; a
    permission's role must exist (section 3). *)
Definition CreatePermission (p : Permission.t) (st : Store) : outcome Store :=
  if existsb (fun r => bool_decide (Role.ID r = Permission.RoleID p)) (roles st)
  then Ok (mkStore (service_accounts st) (roles st) (role_bindings st)
                   (permissions st ++ [p])%list (idSupply st))
  else storageError "permission of an unknown role".

(** Modelled from the spec: [Permissions.ForRole], the permissions
    attached to the role (section 3). *)
Definition ForRole (roleID : string) (st : Store)
  : outcome (list Permission.t) :=
  Ok (List.filter (fun p => bool_decide (Permission.RoleID p = roleID))
             (permissions st)).

(** Modelled from the spec: [Permissions.ForServiceAccount], the
    permissions of the base role and of every bound role (section 4.2). *)
Definition ForServiceAccount (saID : string) (st : Store)
  : outcome (list Permission.t) :=
  Ok (List.filter (fun p =>
                isBaseRoleOf st saID (Permission.RoleID p)
                || bound st saID (Permission.RoleID p))
             (permissions st)).

(** Modelled from the spec: the repositories over the relational store. *)
Definition repo : All := {|
  ServiceAccounts_Get := Get;
  ServiceAccounts_ForEmail := ForEmail;
  ServiceAccounts_ForKeyPair := ForKeyPair;
  ServiceAccounts_Create := CreateAccount;
  ServiceAccounts_Update := UpdateAccount;
  ServiceAccounts_DropBindings := DropBindings;
  Roles_Create := CreateRole;
  Roles_Bind := Bind;
  Roles_DropPermissions := DropPermissions;
  Permissions_Create := CreatePermission;
  Permissions_ForRole := ForRole;
  Permissions_ForServiceAccount := ForServiceAccount
|}.

(** Modelled from the spec: the same repositories with a storage failure
    (section 7); inserting the permission [bad] fails, as a statement that
    the database refuses would. *)
Definition failingOn (bad : Permission.t) : All := {|
  ServiceAccounts_Get := Get;
  ServiceAccounts_ForEmail := ForEmail;
  ServiceAccounts_ForKeyPair := ForKeyPair;
  ServiceAccounts_Create := CreateAccount;
  ServiceAccounts_Update := UpdateAccount;
  ServiceAccounts_DropBindings := DropBindings;
  Roles_Create := CreateRole;
  Roles_Bind := Bind;
  Roles_DropPermissions := DropPermissions;
  Permissions_Create := fun p st =>
    if bool_decide (p = bad) then storageError "insert refused"
    else CreatePermission p st;
  Permissions_ForRole := ForRole;
  Permissions_ForServiceAccount := ForServiceAccount
|}.
End PG.

(** ** net/http as the handlers use it *)

(** What a handler has done to its [http.ResponseWriter]: the headers it
    set and the status it wrote. *)
Record ResponseWriter : Type := mkWriter {
  Header : gmap string string;
  statusCode : option nat
}.

Definition newWriter : ResponseWriter := mkWriter ∅ None.

Definition WriteHeader (code : nat) (w : ResponseWriter) : ResponseWriter :=
  mkWriter (Header w) (Some code).

Definition Header_Set (k v : string) (w : ResponseWriter) : ResponseWriter :=
  mkWriter (<[k := v]> (Header w)) (statusCode w).

(** An inbound request: its [Authorization] header (the empty string when
    the header is absent, as [Header.Get] gives it), the result of reading
    and decoding its JSON body, the [id] variable of its route, and the
    service account that the authentication middleware put in its context. *)
Record Request : Type := mkRequest {
  Authorization : string;
  decodedBody : outcome ServiceAccountWithNested;
  routeID : string;
  ctxServiceAccountID : option string
}.

(** [getServiceAccountID] *)
Definition getServiceAccountID (ctx : option string) : string * bool :=
  match ctx with
  | Some vv => (vv, true)
  | None => ("", false)
  end.

(** How a middleware ends: it answered itself, or it called
    [next.ServeHTTP] with the request (and the service account it put in
    the context), or it panicked. *)
Inductive served : Type :=
| Responded (w : ResponseWriter)
| CalledNext (w : ResponseWriter) (r : Request)
| Crashed (msg : string).

(** ** Package api: api/service_accounts_handlers.go *)

(** The loop that copies the aliases of the request onto the built
    permissions; [BuildPermissions] returns one permission per string. *)
Fixpoint applyAliases (aliases : gmap string string) (strs : list string)
  (ps : list Permission.t) : list Permission.t :=
  match strs, ps with
  | str :: strs', p :: ps' =>
      match aliases !! str with
      | Some alias => Permission.setAlias alias p
      | None => p
      end :: applyAliases aliases strs' ps'
  | _, _ => ps
  end.

(** [processServiceAccountWithNestedFromReq] *)
Definition processServiceAccountWithNestedFromReq (r : Request)
  (sasUC : serviceAccounts) : M ServiceAccountWithNested :=
  sawn <- read (fun _ => decodedBody r) ;;
  let saID := fst (getServiceAccountID (ctxServiceAccountID r)) in
  hasAllOwnerRolesPermissions <-
    HasAllOwnerRolesPermissions sasUC saID (RolesIDs sawn) ;;
  if negb hasAllOwnerRolesPermissions
  then fail UserDoesntHaveAllPermissionsError
  else
    ps <- read (fun _ => BuildPermissions (PermissionsStrings sawn)) ;;
    let sawn :=
      sawn_setPermissions
        (applyAliases (PermissionsAliases sawn) (PermissionsStrings sawn) ps)
        sawn in
    has <- HasAllOwnerPermissions sasUC saID (Permissions sawn) ;;
    if negb has
    then fail UserDoesntHaveAllPermissionsError
    else ret sawn.

(** The status a handler answers with when
    [processServiceAccountWithNestedFromReq] fails. *)
Definition processErrorStatus (e : error) : nat :=
  match e with
  | UserDoesntHaveAllPermissionsError =>
      UserDoesntHaveAllPermissionsError_StatusCode
  | _ => StatusInternalServerError
  end.

(** [serviceAccountsCreateHandler] *)
Definition serviceAccountsCreateHandler (sasUC : serviceAccounts)
  (rnd : Entropy) (r : Request) (st : Store) : served * Store :=
  match processServiceAccountWithNestedFromReq r sasUC st with
  | (Err e, st) => (Responded (WriteHeader (processErrorStatus e) newWriter), st)
  | (Panic msg, st) => (Crashed msg, st)
  | (Ok sawn, st) =>
      if negb (Validation_Valid (Validate sawn))
      then (Responded (WriteHeader StatusUnprocessableEntity newWriter), st)
      else
        let sawn := sawn_setID (routeID r) sawn in
        match CreateWithNested sasUC rnd sawn st with
        | (Err _, st) =>
            (Responded (WriteHeader StatusInternalServerError newWriter), st)
        | (Panic msg, st) => (Crashed msg, st)
        | (Ok _, st) => (Responded (WriteHeader StatusCreated newWriter), st)
        end
  end.

(** [serviceAccountsUpdateHandler] *)
Definition serviceAccountsUpdateHandler (sasUC : serviceAccounts)
  (r : Request) (st : Store) : served * Store :=
  match processServiceAccountWithNestedFromReq r sasUC st with
  | (Err e, st) => (Responded (WriteHeader (processErrorStatus e) newWriter), st)
  | (Panic msg, st) => (Crashed msg, st)
  | (Ok sawn, st) =>
      if negb (Validation_Valid (Validate sawn))
      then (Responded (WriteHeader StatusUnprocessableEntity newWriter), st)
      else
        let sawn := sawn_setID (routeID r) sawn in
        match UpdateWithNested sasUC sawn st with
        | (Err _, st) =>
            (Responded (WriteHeader StatusInternalServerError newWriter), st)
        | (Panic msg, st) => (Crashed msg, st)
        | (Ok _, st) => (Responded (WriteHeader StatusOK newWriter), st)
        end
  end.

(** ** Package api: api/auth_middleware.go *)

(** The value the middleware reads from [AuthenticateKeyPair]: it uses the
    fields [Name] and [ServiceAccountID] of the result (the type is not
    declared in the sources). *)
Module AccessKeyPairAuth.
Record t : Type := mk { ServiceAccountID : string; Name : string }.
End AccessKeyPairAuth.

(** The two methods of the interface [usecases.ServiceAccounts] that the
    middleware calls. *)
Record ServiceAccountsAuth : Type := {
  uc_AuthenticateAccessToken : string -> M AccessTokenAuth.t;
  uc_AuthenticateKeyPair : string -> string -> M AccessKeyPairAuth.t
}.

(** [r.WithContext(context.WithValue(r.Context(), serviceAccountIDCtxKey, id))] *)
Definition withServiceAccountID (id : string) (r : Request) : Request :=
  mkRequest (Authorization r) (decodedBody r) (routeID r) (Some id).

(** [authMiddleware] *)
Definition authMiddleware (sasUC : ServiceAccountsAuth) (r : Request)
  (st : Store) : served * Store :=
  let w := newWriter in
  let authorization := Authorization r in
  let parts := strings_Split authorization " " in
  if bool_decide (authorization = "") || negb (bool_decide (length parts = 2))
  then (Responded (WriteHeader StatusUnauthorized w), st)
  else
    let parts0 := default "" (parts !! 0) in
    let parts1 := default "" (parts !! 1) in
    if bool_decide (parts0 = "KeyPair") then
      let keyPair := strings_Split parts1 ":" in
      match keyPair !! 0, keyPair !! 1 with
      | Some keyID, Some keySecret =>
          match uc_AuthenticateKeyPair sasUC keyID keySecret st with
          | (Err _, st) =>
              (Responded (WriteHeader StatusInternalServerError w), st)
          | (Panic msg, st) => (Crashed msg, st)
          | (Ok accessKeyPairAuth, st) =>
              let w := Header_Set "x-service-account-name"
                         (AccessKeyPairAuth.Name accessKeyPairAuth) w in
              (CalledNext w
                 (withServiceAccountID
                    (AccessKeyPairAuth.ServiceAccountID accessKeyPairAuth) r),
               st)
          end
      | _, _ => (Crashed "index out of range", st)
      end
    else if bool_decide (parts0 = "Bearer") then
      let accessToken := parts1 in
      match uc_AuthenticateAccessToken sasUC accessToken st with
      | (Err EntityNotFoundError, st) =>
          (Responded (WriteHeader StatusUnauthorized w), st)
      | (Err _, st) =>
          (Responded (WriteHeader StatusInternalServerError w), st)
      | (Panic msg, st) => (Crashed msg, st)
      | (Ok accessTokenAuth, st) =>
          let w := Header_Set "x-email"
                     (AccessTokenAuth.Email accessTokenAuth) w in
          let w :=
            if negb (bool_decide
                       (AccessTokenAuth.AccessToken accessTokenAuth = accessToken))
            then Header_Set "x-access-token"
                   (AccessTokenAuth.AccessToken accessTokenAuth) w
            else w in
          (CalledNext w
             (withServiceAccountID
                (AccessTokenAuth.ServiceAccountID accessTokenAuth) r),
           st)
      end
    else (Responded (WriteHeader StatusUnauthorized w), st).

(** The use cases of usecases/service_accounts.go behind the interface of
    the middleware.  The key-pair use case returns the id of the account;
    the name that the middleware also reads is the one of that account. *)
Definition authUseCases (sas : serviceAccounts) (rnd : Entropy)
  : ServiceAccountsAuth := {|
  uc_AuthenticateAccessToken := AuthenticateAccessToken sas rnd;
  uc_AuthenticateKeyPair := fun keyID keySecret =>
    id <- AuthenticateKeyPair sas keyID keySecret ;;
    sa <- read (ServiceAccounts_Get (repo sas) id) ;;
    ret (AccessKeyPairAuth.mk id (ServiceAccount.Name sa))
|}.

(** ** Package http: pkg/http/middleware.go *)

Module william.
(** The configuration ([viper.Viper]) as the middleware reads it: values
    set by the embedding application win over the defaults. *)
Inductive ConfigValue : Type :=
| VBool (b : bool)
| VString (s : string)
| VInt (n : Z)
| VDuration (nanoseconds : Z).

Record Viper : Type := mkViper {
  overrides : gmap string ConfigValue;
  defaults : gmap string ConfigValue
}.

Definition SetDefault (key : string) (v : ConfigValue) (c : Viper) : Viper :=
  mkViper (overrides c) (<[key := v]> (defaults c)).

Definition Get (key : string) (c : Viper) : option ConfigValue :=
  match overrides c !! key with
  | Some v => Some v
  | None => defaults c !! key
  end.

(** [strconv.ParseBool], false when the string is not a boolean. *)
Definition ParseBool (s : string) : bool :=
  bool_decide (s ∈ ["1"; "t"; "T"; "TRUE"; "true"; "True"]).

Definition GetBool (key : string) (c : Viper) : bool :=
  match Get key c with
  | Some (VBool b) => b
  | Some (VString s) => ParseBool s
  | Some (VInt n) => negb (bool_decide (n = 0%Z))
  | Some (VDuration n) => negb (bool_decide (n = 0%Z))
  | None => false
  end.

Definition GetString (key : string) (c : Viper) : string :=
  match Get key c with
  | Some (VString s) => s
  | Some (VBool true) => "true"
  | Some (VBool false) => "false"
  | _ => ""
  end.

(** [configure] *)
Definition configure (config : Viper) : Viper :=
  let config := SetDefault "william.http.maxIdleConnsPerHost" (VInt 2) config in
  let config := SetDefault "william.http.maxIdleConns" (VInt 100) config in
  let config := SetDefault "william.http.timeout" (VDuration 500000000) config in
  let config := SetDefault "william.url" (VString "http://localhost:4040") config in
  let config := SetDefault "william.enabled" (VBool false) config in
  SetDefault "william.permission.service" (VString "service") config.

(** [permission]: what the permission string is built from. *)
Record permission : Type := mkPermission {
  Service : string;
  OwnershipLevel : string;
  Action : string;
  Resource : Request -> string
}.

(** [permission.build] *)
Definition build (p : permission) (r : Request) : string :=
  Service p ++ "::" ++ OwnershipLevel p ++ "::" ++ Action p ++ "::"
    ++ Resource p r.

(** [Middleware]; the logger plays no part and [next] is the
    continuation [CalledNext]. *)
Record Middleware : Type := mkMiddleware {
  perm : permission;
  iamURL : string;
  enabled : bool
}.

(** [NewMiddleware] *)
Definition NewMiddleware (config : Viper) (ownershipLevel action : string)
  (resource : Request -> string) : Middleware :=
  let config := configure config in
  mkMiddleware
    (mkPermission (GetString "william.permission.service" config)
                  ownershipLevel action resource)
    (GetString "william.url" config)
    (GetBool "william.enabled" config).

(** The request sent to Will.IAM and what comes back: the status and the
    two headers read from the response (empty when absent). *)
Record OutRequest : Type := mkOutRequest {
  Method : string;
  URL : string;
  outAuthorization : string
}.

Record Response : Type := mkResponse {
  StatusCode : nat;
  xAccessToken : string;
  xEmail : string
}.

(** The standard library and the network under the middleware:
    [url.QueryEscape], whether [http.NewRequest] accepts a URL, and the
    answer of [client.Do] to a request. *)
Record Net : Type := {
  QueryEscape : string -> string;
  acceptsURL : string -> bool;
  Do : OutRequest -> outcome Response
}.

Module auth.
Record t : Type := mk { code : nat; token : string; email : string }.
End auth.

(** [accessTokenFromHeader] *)
Definition accessTokenFromHeader (r : Request) : string :=
  let authorization := Authorization r in
  let parts := strings_Split authorization " " in
  match parts with
  | [] => ""
  | part0 :: _ => part0
  end.

(** [Middleware.getAuthStatus]: the result, and the requests that went
    out on the wire. *)
Definition getAuthStatus (net : Net) (m : Middleware)
  (permission token : string) : outcome auth.t * list OutRequest :=
  let url := iamURL m ++ "/permissions/has?permission="
               ++ QueryEscape net permission in
  if negb (acceptsURL net url)
  then (Err (OtherError "parse url"), [])
  else
    let req := mkOutRequest "GET" url token in
    match Do net req with
    | Ok res =>
        (Ok (auth.mk (StatusCode res) (xAccessToken res) (xEmail res)), [req])
    | Err e => (Err e, [req])
    | Panic msg => (Panic msg, [req])
    end.

(** [Middleware.ServeHTTP] *)
Definition ServeHTTP (net : Net) (m : Middleware) (w : ResponseWriter)
  (r : Request) : served * list OutRequest :=
  if negb (enabled m) then (CalledNext w r, [])
  else
    let token := accessTokenFromHeader r in
    if bool_decide (token = "")
    then (Responded (WriteHeader StatusUnauthorized w), [])
    else
      match getAuthStatus net m (build (perm m) r) token with
      | (Err _, sent) =>
          (Responded (WriteHeader StatusInternalServerError w), sent)
      | (Panic msg, sent) => (Crashed msg, sent)
      | (Ok status, sent) =>
          if negb (bool_decide (auth.code status = StatusOK))
          then (Responded (WriteHeader (auth.code status) w), sent)
          else
            let w :=
              if negb (bool_decide (auth.token status = ""))
                 && negb (bool_decide (auth.token status = token))
              then Header_Set "x-access-token" (auth.token status) w
              else w in
            let w :=
              if negb (bool_decide (auth.email status = ""))
              then Header_Set "x-email" (auth.email status) w
              else w in
            (CalledNext w r, sent)
      end.
End william.

(** ** Vocabulary of the statements *)

(** The permission with its ownership level forced to [Owner]. *)
Definition asOwner : Permission.t -> Permission.t :=
  Permission.setOwnershipLevel OwnershipLevel.Owner.

(** The account holding [held] owns every permission of [ps]. *)
Definition ownsAll (held ps : list Permission.t) : Prop :=
  ∀ p, p ∈ ps → Permission.IsPresent (asOwner p) held = true.

(** The acting identity of a request. *)
Definition actor (r : Request) : string :=
  fst (getServiceAccountID (ctxServiceAccountID r)).

(** Code that only reads leaves the store it was given. *)
Definition readOnly {A} (m : M A) : Prop := ∀ st, snd (m st) = st.

(** What [UpdateWithNested] relies on from the storage collaborator for the
    bindings of an account (sections 3, 4.3 and 6): a lookup by id returns
    the account of that id, an update is read back, [DropBindings] keeps
    the bindings of other accounts and the one to the base role, [Bind]
    adds its binding, and the other writes leave the bindings alone. *)
Record BindingsContract (repo : All) : Prop := {
  get_returns_id :
    ∀ id st sa,
      ServiceAccounts_Get repo id st = Ok sa → ServiceAccount.ID sa = id;
  update_then_get :
    ∀ sa st st',
      ServiceAccounts_Update repo sa st = Ok st' →
      isOk (ServiceAccounts_Get repo (ServiceAccount.ID sa) st) = true →
      ServiceAccounts_Get repo (ServiceAccount.ID sa) st' = Ok sa;
  update_keeps_bindings :
    ∀ sa st st',
      ServiceAccounts_Update repo sa st = Ok st' →
      role_bindings st' = role_bindings st;
  drop_bindings_keeps_base :
    ∀ id st st' sa,
      ServiceAccounts_DropBindings repo id st = Ok st' →
      ServiceAccounts_Get repo id st = Ok sa →
      role_bindings st'
      = List.filter
          (fun b =>
             negb (bool_decide (RoleBinding.ServiceAccountID b = id))
             || bool_decide (RoleBinding.RoleID b = ServiceAccount.BaseRoleID sa))
          (role_bindings st);
  bind_appends :
    ∀ b st st',
      Roles_Bind repo b st = Ok st' →
      role_bindings st' = (role_bindings st ++ [b])%list;
  drop_permissions_keeps_bindings :
    ∀ roleID st st',
      Roles_DropPermissions repo roleID st = Ok st' →
      role_bindings st' = role_bindings st;
  create_permission_keeps_bindings :
    ∀ p st st',
      Permissions_Create repo p st = Ok st' →
      role_bindings st' = role_bindings st
}.

(** ** Scenarios *)

(** The use cases over the relational store. *)
Definition pgSas (provider : string -> outcome AuthResult.t) : serviceAccounts :=
  {| repo := PG.repo; oauth2Provider := provider |}.

Definition noProvider : string -> outcome AuthResult.t :=
  fun _ => Err (OtherError "no provider").

Definition someEntropy : Entropy :=
  {| newUUID := "sa-new"; newKeyID := "key-id"; newKeySecret := "key-secret" |}.

Definition jsonRequest (actorID : string) (sawn : ServiceAccountWithNested)
  : Request :=
  mkRequest "" (Ok sawn) "" (Some actorID).

Definition headerRequest (authorization : string) : Request :=
  mkRequest authorization (Err (OtherError "no body")) "" None.

(** An account whose only permission is [svc::Lender::act::res]. *)
Definition lenderStore : Store :=
  mkStore
    [ServiceAccount.mk "sa-lender" "lender" "k1" "s1" "" "" "role-lender"
                       AuthenticationTypes.KeyPair]
    [Role.mk "role-lender" "service-account:sa-lender" true]
    [RoleBinding.mk "sa-lender" "role-lender"]
    [Permission.mk "role-lender" "svc" OwnershipLevel.Lender "act" "res" ""]
    ["role-1"; "role-2"].

(** It asks for a new account with the inline permission
    [svc::Owner::act::res]. *)
Definition escalationRequest : Request :=
  jsonRequest "sa-lender"
    (mkSawn "" "escalated" "" "" ["svc::Owner::act::res"] ∅ [] [] []
            AuthenticationTypes.KeyPair).

(** The request of the lender as an array on the heap. *)
Definition ownerOfRes : Permission.t :=
  Permission.mk "" "svc" OwnershipLevel.Owner "act" "res" "".

Definition lenderOfRes : Permission.t :=
  Permission.mk "role-lender" "svc" OwnershipLevel.Lender "act" "res" "".

Definition requestHeap : Mem.heap := [[lenderOfRes; ownerOfRes]].

(** Three inline permissions, the third of which the database refuses. *)
Definition grant (resource : string) : Permission.t :=
  Permission.mk "" "svc" OwnershipLevel.Lender "act" resource "".

Definition threePermissions : ServiceAccountWithNested :=
  mkSawn "" "batch" "" "" [] ∅ [grant "a"; grant "b"; grant "c"] [] []
         AuthenticationTypes.KeyPair.

Definition refusingThird : serviceAccounts :=
  {| repo := PG.failingOn (Permission.setRoleID "role-1" (grant "c"));
     oauth2Provider := noProvider |}.

(** An account bound to its base role and to the roles [R1] and [R2]. *)
Definition boundStore : Store :=
  mkStore
    [ServiceAccount.mk "sa-u" "old name" "k2" "s2" "old@x.com" "" "role-u"
                       AuthenticationTypes.OAuth2]
    [Role.mk "role-u" "service-account:sa-u" true;
     Role.mk "R1" "readers" false; Role.mk "R2" "writers" false;
     Role.mk "R3" "auditors" false]
    [RoleBinding.mk "sa-u" "role-u"; RoleBinding.mk "sa-u" "R1";
     RoleBinding.mk "sa-u" "R2"]
    [] [].

(** The update that asks for the roles [R2] and [R3], a new name and a new
    email. *)
Definition rebindRequest : ServiceAccountWithNested :=
  mkSawn "sa-u" "new name" "new@x.com" "" [] ∅ [] ["R2"; "R3"] []
         AuthenticationTypes.OAuth2.

(** A provider that knows the token [tok] of [new@x.com]. *)
Definition knownToken : string -> outcome AuthResult.t :=
  fun accessToken =>
    if bool_decide (accessToken = "tok")
    then Ok (AuthResult.mk "tok" "new@x.com" "http://x.com/p.png")
    else Err (OtherError "invalid token").

(** A Will.IAM that grants the permission to the bearer of [abc] and
    answers 401 to anything else, as [authMiddleware] does. *)
Definition iam : william.Net := {|
  william.QueryEscape := fun s => s;
  william.acceptsURL := fun _ => true;
  william.Do := fun req =>
    if bool_decide (william.outAuthorization req = "Bearer abc")
    then Ok (william.mkResponse StatusOK "" "user@x.com")
    else Ok (william.mkResponse StatusUnauthorized "" "")
|}.

Definition guard : william.Middleware :=
  william.mkMiddleware
    (william.mkPermission "service" "RL" "Action" (fun _ => "*"))
    "http://localhost:4040" true.

(** The store after the update [rebindRequest] of [boundStore]. *)
Definition reboundStore : Store :=
  snd (UpdateWithNested (pgSas noProvider) rebindRequest boundStore).

(** The store that the closure of [CreateWithNested] has reached when the
    third permission is refused, before the transaction is aborted. *)
Definition abortedStore : Store :=
  snd (createWithNestedFn someEntropy threePermissions (repo refusingThird)
         lenderStore).

(** The same update with three inline permissions, the third refused;
    the store that the closure has reached by then. *)
Definition rebindWithGrants : ServiceAccountWithNested :=
  sawn_setPermissions [grant "a"; grant "b"; grant "c"] rebindRequest.

Definition refusingThirdOfUpdate : serviceAccounts :=
  {| repo := PG.failingOn (Permission.setRoleID "role-u" (grant "c"));
     oauth2Provider := noProvider |}.

Definition abortedUpdateStore : Store :=
  snd (updateWithNestedFn rebindWithGrants (repo refusingThirdOfUpdate)
         boundStore).

Definition defaultConfig : william.Viper := william.mkViper ∅ ∅.

(** ** More of the sources *)

(** *** usecases/service_accounts.go *)

(** The loop of [GetWithNested] over the permissions of the base role:
    [permissions[i] = str], and [permissionsAliases[str] = pSl[i].Alias]
    when the alias is not empty. *)
Fixpoint nestedPermissions (pSl : list Permission.t)
  (permissionsAliases : gmap string string)
  : list string * gmap string string :=
  match pSl with
  | [] => ([], permissionsAliases)
  | p :: rest =>
      let str := Permission.String p in
      let permissionsAliases :=
        if negb (bool_decide (Permission.Alias p = ""))
        then <[str := Permission.Alias p]> permissionsAliases
        else permissionsAliases in
      let '(permissions, permissionsAliases) :=
        nestedPermissions rest permissionsAliases in
      (str :: permissions, permissionsAliases)
  end.

(** [serviceAccounts.GetWithNested].  [Roles.ForServiceAccountID] is the
    one repository read that the functions above do not use; it is taken
    as it comes. *)
Definition GetWithNested (sas : serviceAccounts)
  (Roles_ForServiceAccountID : string -> Store -> outcome (list Role.t))
  (serviceAccountID : string) : M ServiceAccountWithNested :=
  sa <- read (ServiceAccounts_Get (repo sas) serviceAccountID) ;;
  pSl <- read (Permissions_ForRole (repo sas) (ServiceAccount.BaseRoleID sa)) ;;
  let '(permissions, permissionsAliases) := nestedPermissions pSl ∅ in
  roles <- read (Roles_ForServiceAccountID serviceAccountID) ;;
  ret (mkSawn (ServiceAccount.ID sa) (ServiceAccount.Name sa)
              (ServiceAccount.Email sa) (ServiceAccount.Picture sa)
              permissions permissionsAliases [] [] roles
              (ServiceAccount.AuthenticationType sa)).

(** The loop of [HasPermissionsStrings]:
    [pSl[i], err = models.BuildPermission(permissions[i])], returning at
    the first error. *)
Fixpoint buildEach (permissions : list string) : outcome (list Permission.t) :=
  match permissions with
  | [] => Ok []
  | str :: rest =>
      match BuildPermission str with
      | Ok p =>
          match buildEach rest with
          | Ok pSl => Ok (p :: pSl)
          | Err e => Err e
          | Panic m => Panic m
          end
      | Err e => Err e
      | Panic m => Panic m
      end
  end.

(** [serviceAccounts.HasPermissionsStrings] *)
Definition HasPermissionsStrings (sas : serviceAccounts)
  (serviceAccountID : string) (permissions : list string) : M (list bool) :=
  pSl <- read (fun _ => buildEach permissions) ;;
  HasPermissions sas serviceAccountID pSl.

(** *** api/service_accounts_handlers.go *)

(** [serviceAccountsGetHandler]: the status, and the body when there is
    one.  [Marshal] is [json.Marshal] on the nested account. *)
Definition serviceAccountsGetHandler (sasUC : serviceAccounts)
  (Roles_ForServiceAccountID : string -> Store -> outcome (list Role.t))
  (Marshal : ServiceAccountWithNested -> outcome string)
  (r : Request) (st : Store) : served * option string * Store :=
  let saID := routeID r in
  match GetWithNested sasUC Roles_ForServiceAccountID saID st with
  | (Err _, st) =>
      (Responded (WriteHeader StatusInternalServerError newWriter), None, st)
  | (Panic msg, st) => (Crashed msg, None, st)
  | (Ok sawn, st) =>
      match Marshal sawn with
      | Err _ =>
          (Responded (WriteHeader StatusInternalServerError newWriter), None,
           st)
      | Panic msg => (Crashed msg, None, st)
      | Ok bts => (Responded (WriteHeader StatusOK newWriter), Some bts, st)
      end
  end.

(** *** Vocabulary *)

(** The part of [s] before its first [c], all of [s] when it has none:
    the first element of [strings.Split(s, c)]. *)
Fixpoint upTo (c : Ascii.ascii) (s : string) : string :=
  match s with
  | EmptyString => EmptyString
  | String a s' => if bool_decide (c = a) then EmptyString else String a (upTo c s')
  end.

(** Whether [c] occurs in [s]. *)
Fixpoint hasChar (c : Ascii.ascii) (s : string) : bool :=
  match s with
  | EmptyString => false
  | String a s' => bool_decide (c = a) || hasChar c s'
  end.

(** The permission without its alias, as [BuildPermission] builds it. *)
Definition noAlias : Permission.t -> Permission.t := Permission.setAlias "".

(** What the account creation relies on from the storage collaborator for
    the bindings, besides [BindingsContract]: creating a role or an account
    row leaves the bindings alone. *)
Record CreateContract (repo : All) : Prop := {
  role_create_keeps_bindings :
    ∀ r r' st st',
      Roles_Create repo r st = Ok (r', st') →
      role_bindings st' = role_bindings st;
  account_create_keeps_bindings :
    ∀ sa st st',
      ServiceAccounts_Create repo sa st = Ok st' →
      role_bindings st' = role_bindings st
}.

(** The answer of [authMiddleware] to a successful OAuth2
    authentication: the [x-email] header, and the [x-access-token] header
    when the token was refreshed. *)
Definition bearerWriter (accessToken : string) (a : AccessTokenAuth.t)
  : ResponseWriter :=
  let w := Header_Set "x-email" (AccessTokenAuth.Email a) newWriter in
  if negb (bool_decide (AccessTokenAuth.AccessToken a = accessToken))
  then Header_Set "x-access-token" (AccessTokenAuth.AccessToken a) w
  else w.


(** ** More scenarios *)

(** Modelled from the spec: [Roles.ForServiceAccountID] over the
    relational store, which section 6 names without more; taken to be the
    roles the account is bound to. *)
Definition boundRoles (saID : string) (st : Store) : outcome (list Role.t) :=
  Ok (List.filter (fun r => bound st saID (Role.ID r)) (roles st)).

(** An account that owns [svc::Owner::act::res], under the alias
    [the resource], and lends every resource of [act]. *)
Definition aliasedStore : Store :=
  mkStore
    [ServiceAccount.mk "sa-a" "aliased" "k3" "s3" "" "" "role-a"
                       AuthenticationTypes.KeyPair]
    [Role.mk "role-a" "service-account:sa-a" true]
    [RoleBinding.mk "sa-a" "role-a"]
    [Permission.mk "role-a" "svc" OwnershipLevel.Owner "act" "res"
                   "the resource";
     Permission.mk "role-a" "svc" OwnershipLevel.Lender "act" "*" ""]
    ["role-9"].

(** It asks for a new account that is lent what it owns, under an alias. *)
Definition ownedGrant : ServiceAccountWithNested :=
  mkSawn "" "granted" "" "" ["svc::Lender::act::res"]
         {["svc::Lender::act::res" := "lent"]} [] [] []
         AuthenticationTypes.KeyPair.

Definition ownedGrantRequest : Request := jsonRequest "sa-a" ownedGrant.

(** The lender asks for an account without a name that is granted
    nothing. *)
Definition namelessRequest : Request :=
  jsonRequest "sa-lender"
    (mkSawn "" "" "" "" [] ∅ [] [] [] AuthenticationTypes.KeyPair).

(** The lender asks for an account with a permission string of three
    fields. *)
Definition malformedRequest : Request :=
  jsonRequest "sa-lender"
    (mkSawn "" "robot" "" "" ["svc::Lender::act"] ∅ [] [] []
            AuthenticationTypes.KeyPair).

(** A provider that knows the token [tok2] of [old@x.com], who has a
    picture by now. *)
Definition returningToken : string -> outcome AuthResult.t :=
  fun accessToken =>
    if bool_decide (accessToken = "tok2")
    then Ok (AuthResult.mk "tok2" "old@x.com" "http://x.com/old.png")
    else Err (OtherError "invalid token").

(** A JSON encoder that fails on nothing. *)
Definition someMarshal (sawn : ServiceAccountWithNested) : outcome string :=
  Ok ("{id: " ++ ID sawn ++ ", name: " ++ Name sawn ++ "}").

(** A Will.IAM that cannot be reached. *)
Definition unreachable : william.Net := {|
  william.QueryEscape := fun s => s;
  william.acceptsURL := fun _ => true;
  william.Do := fun _ => Err (OtherError "connection refused")
|}.

(** * Properties *)

Open Scope list_scope.

(** Unfolds the plumbing of [M] so that the repository calls show. *)
Ltac unfold_go :=
  repeat (progress (unfold bind, read, write, writeRet, ret, fail, panic;
                    cbv beta)).

(** ** The Owner-level check *)

Lemma allHas_forallb (has : list bool) : allHas has = forallb id has.
Proof.
  induction has as [|b has IH]; [done|].
  destruct b; simpl; [exact IH | done].
Qed.

Lemma allHas_true (has : list bool) : allHas has = true ↔ ∀ b, b ∈ has → b = true.
Proof.
  induction has as [|b has IH]; simpl.
  - split; [intros _ b Hb; inversion Hb | done].
  - destruct b; simpl.
    + rewrite IH. split.
      * intros H b Hb. apply elem_of_cons in Hb as [->|Hb]; [done | by apply H].
      * intros H b Hb. apply H. by right.
    + split; [done|]. intros H. apply H. by left.
Qed.

Lemma allHas_false_at (pre post : list bool) : allHas (pre ++ false :: post) = false.
Proof. induction pre as [|b pre IH]; [done|]. destruct b; [exact IH | done]. Qed.

Lemma allHas_owner (held ps : list Permission.t) :
  allHas (map (fun p => Permission.IsPresent p held) (map asOwner ps)) = true
  ↔ ownsAll held ps.
Proof.
  rewrite allHas_true. unfold ownsAll. split.
  - intros H p Hp. apply H.
    apply list_elem_of_fmap. exists (asOwner p). split; [done|].
    apply list_elem_of_fmap. by exists p.
  - intros H b Hb.
    apply list_elem_of_fmap in Hb as (q & -> & Hq).
    apply list_elem_of_fmap in Hq as (p & -> & Hp). by apply H.
Qed.

Section OwnerCheck.
Variable sas : serviceAccounts.
Variable serviceAccountID : string.
Variable st : Store.
Variable held : list Permission.t.
Hypothesis Hheld :
  Permissions_ForServiceAccount (repo sas) serviceAccountID st = Ok held.

Lemma HasPermissions_ok (ps : list Permission.t) :
  HasPermissions sas serviceAccountID ps st
  = (Ok (map (fun p => Permission.IsPresent p held) ps), st).
Proof.
  unfold HasPermissions, GetPermissions, serviceAccountGetPermissions,
    bind, read, ret.
  by rewrite Hheld.
Qed.

Lemma HasAllOwnerPermissions_ok (ps : list Permission.t) :
  HasAllOwnerPermissions sas serviceAccountID ps st
  = (Ok (allHas (map (fun p => Permission.IsPresent p held) (map asOwner ps))),
     st).
Proof.
  unfold HasAllOwnerPermissions, bind. by rewrite HasPermissions_ok.
Qed.
End OwnerCheck.

(** *** The copy loop on the heap *)

Lemma heap_lookup_fresh (h : Mem.heap) (cell : list Permission.t) :
  (h ++ [cell]) !! length h = Some cell.
Proof. by rewrite lookup_app_r, Nat.sub_diag. Qed.

Lemma heap_insert_fresh (h : Mem.heap) (cell cell' : list Permission.t) :
  <[length h := cell']> (h ++ [cell]) = h ++ [cell'].
Proof. by rewrite insert_app_r_alt, Nat.sub_diag. Qed.

Lemma copyAsOwner_cell (h : Mem.heap) (a : Mem.addr) (ps : list Permission.t) :
  h !! a = Some ps →
  ∀ m k cell,
    k + m = length ps →
    length cell = length ps →
    Mem.copyAsOwner a (length h) (seq k m) (h ++ [cell])
    = Ok (h ++ [take k cell ++ map asOwner (drop k ps)]).
Proof.
  intros Ha m. induction m as [|m IH]; intros k cell Hk Hlen.
  - simpl. rewrite Nat.add_0_r in Hk. subst k.
    rewrite drop_all, <- Hlen, firstn_all. simpl. by rewrite app_nil_r.
  - simpl.
    assert (Hklt : k < length ps) by lia.
    destruct (lookup_lt_is_Some_2 ps k Hklt) as [p Hp].
    unfold Mem.load at 1. rewrite (lookup_app_l_Some _ _ _ _ Ha), Hp.
    unfold Mem.store at 1. rewrite heap_lookup_fresh.
    rewrite bool_decide_true by lia.
    rewrite heap_insert_fresh.
    unfold Mem.load at 1. rewrite heap_lookup_fresh.
    rewrite list_lookup_insert_eq by lia.
    unfold Mem.store at 1. rewrite heap_lookup_fresh.
    rewrite bool_decide_true by (rewrite length_insert; lia).
    rewrite heap_insert_fresh, list_insert_insert_eq.
    rewrite (IH (S k)) by (rewrite ?length_insert; lia).
    do 3 f_equal.
    rewrite (drop_S _ _ _ Hp). simpl.
    rewrite (take_S_r _ _ (asOwner p)) by (apply list_lookup_insert_eq; lia).
    rewrite take_insert_ge by lia.
    by rewrite <- app_assoc.
Qed.

(** C2.  [HasAllOwnerPermissions] answers true exactly when every requested
    permission, with its ownership level replaced by [Owner], is present
    ([IsPresent]) in the permissions of the account; one absent permission
    makes the answer false; and the caller's array is left as it was: the
    Owner levels are written to a fresh copy.  The call on slice values,
    used by the handlers, gives the same answer. *)
Theorem HasAllOwnerPermissions_iff_owner_present
  (sas : serviceAccounts) (serviceAccountID : string) (st : Store)
  (held : list Permission.t) (h : Mem.heap) (permissions : Mem.addr)
  (ps : list Permission.t) :
  Permissions_ForServiceAccount (repo sas) serviceAccountID st = Ok held →
  h !! permissions = Some ps →
  ∃ (b : bool) (h' : Mem.heap),
    Mem.HasAllOwnerPermissions sas serviceAccountID permissions h st
    = (Ok (b, h'), st)
    ∧ (b = true ↔
       ∀ p, p ∈ ps → Permission.IsPresent (asOwner p) held = true)
    ∧ (∀ i p, ps !! i = Some p →
              Permission.IsPresent (asOwner p) held = false → b = false)
    ∧ (∀ a, a < length h → h' !! a = h !! a)
    ∧ h' !! permissions = Some ps
    ∧ HasAllOwnerPermissions sas serviceAccountID ps st = (Ok b, st).
Proof.
  intros Hheld Hps.
  exists (allHas (map (fun p => Permission.IsPresent p held) (map asOwner ps))),
         (h ++ [map asOwner ps]).
  assert (Hlt : permissions < length h) by (eapply lookup_lt_Some; eauto).
  split_and!.
  - unfold Mem.HasAllOwnerPermissions, Mem.len, Mem.make. rewrite Hps.
    rewrite (copyAsOwner_cell h permissions ps Hps (length ps) 0)
      by (rewrite ?length_replicate; lia).
    simpl. rewrite drop_0.
    unfold Mem.HasPermissions, GetPermissions, serviceAccountGetPermissions.
    rewrite heap_lookup_fresh. unfold_go. by rewrite Hheld.
  - apply allHas_owner.
  - intros i p Hi Hp.
    destruct (allHas _) eqn:Hall; [|done].
    apply allHas_owner in Hall. rewrite Hall in Hp; [done|].
    eapply list_elem_of_lookup_2; eauto.
  - intros a Ha. by apply lookup_app_l.
  - by apply lookup_app_l_Some.
  - by apply HasAllOwnerPermissions_ok.
Qed.

(** ** Authorization of create and update requests *)

Lemma rolesPermissions_ok (repo : All) (st : Store) (rolesIDs : list string)
  (rolesPs : list (list Permission.t)) :
  Forall2 (fun roleID rps => Permissions_ForRole repo roleID st = Ok rps)
          rolesIDs rolesPs →
  ∀ acc, rolesPermissions repo rolesIDs acc st = (Ok (acc ++ concat rolesPs), st).
Proof.
  induction 1 as [|roleID rps rolesIDs rolesPs Hrole _ IH]; intros acc; simpl.
  - by rewrite app_nil_r.
  - unfold_go. rewrite Hrole, IH. by rewrite app_assoc.
Qed.

Lemma IsPresent_setAlias (alias : string) (p : Permission.t)
  (held : list Permission.t) :
  Permission.IsPresent (asOwner (Permission.setAlias alias p)) held
  = Permission.IsPresent (asOwner p) held.
Proof. reflexivity. Qed.

Lemma owner_checks_applyAliases (aliases : gmap string string)
  (held : list Permission.t) (strs : list string) (ps : list Permission.t) :
  map (fun p => Permission.IsPresent p held)
      (map asOwner (applyAliases aliases strs ps))
  = map (fun p => Permission.IsPresent p held) (map asOwner ps).
Proof.
  revert ps. induction strs as [|str strs IH]; intros [|p ps]; simpl; try done.
  rewrite IH. f_equal. by destruct (aliases !! str).
Qed.

Lemma not_ownsAll_allHas (held ps : list Permission.t) :
  ¬ ownsAll held ps →
  allHas (map (fun p => Permission.IsPresent p held) (map asOwner ps)) = false.
Proof.
  intros Hnot. destruct (allHas _) eqn:Hall; [|done].
  by apply allHas_owner in Hall.
Qed.

Lemma ownsAll_dec (held ps : list Permission.t) :
  ownsAll held ps ∨ ¬ ownsAll held ps.
Proof.
  destruct (allHas (map (fun p => Permission.IsPresent p held) (map asOwner ps)))
    eqn:Hall.
  - left. by apply allHas_owner.
  - right. intros H. apply allHas_owner in H. congruence.
Qed.

Lemma readOnly_ret {A} (a : A) : readOnly (ret a).
Proof. by intros st. Qed.

Lemma readOnly_fail {A} (e : error) : readOnly (@fail A e).
Proof. by intros st. Qed.

Lemma readOnly_read {A} (f : Store → outcome A) : readOnly (read f).
Proof. by intros st. Qed.

Lemma readOnly_bind {A B} (m : M A) (k : A → M B) :
  readOnly m → (∀ a, readOnly (k a)) → readOnly (bind m k).
Proof.
  intros Hm Hk st. unfold bind. specialize (Hm st).
  destruct (m st) as [[a|e|msg] st1]; simpl in *; subst; [apply Hk|done..].
Qed.

Create HintDb readonly.
#[local] Hint Resolve readOnly_ret readOnly_fail readOnly_read : readonly.

Lemma readOnly_rolesPermissions (repo : All) (rolesIDs : list string) :
  ∀ acc, readOnly (rolesPermissions repo rolesIDs acc).
Proof.
  induction rolesIDs as [|roleID rolesIDs IH]; intros acc; simpl.
  - auto with readonly.
  - apply readOnly_bind; auto with readonly.
Qed.

Lemma readOnly_HasAllOwnerPermissions (sas : serviceAccounts) (saID : string)
  (ps : list Permission.t) :
  readOnly (HasAllOwnerPermissions sas saID ps).
Proof.
  unfold HasAllOwnerPermissions, HasPermissions, GetPermissions,
    serviceAccountGetPermissions.
  repeat (apply readOnly_bind; [|intros ?]); auto with readonly.
Qed.

Lemma readOnly_process (r : Request) (sas : serviceAccounts) :
  readOnly (processServiceAccountWithNestedFromReq r sas).
Proof.
  unfold processServiceAccountWithNestedFromReq, HasAllOwnerRolesPermissions.
  apply readOnly_bind; [auto with readonly|]. intros sawn.
  apply readOnly_bind.
  { apply readOnly_bind; [apply readOnly_rolesPermissions|].
    intros ps. apply readOnly_HasAllOwnerPermissions. }
  intros [|]; simpl; [|auto with readonly].
  apply readOnly_bind; [auto with readonly|]. intros ps.
  apply readOnly_bind; [apply readOnly_HasAllOwnerPermissions|].
  intros [|]; simpl; auto with readonly.
Qed.

Section Authorize.
Variable sas : serviceAccounts.
Variable r : Request.
Variable st : Store.
Variable sawn : ServiceAccountWithNested.
Variable held : list Permission.t.
Variable rolesPs : list (list Permission.t).
Hypothesis Hbody : decodedBody r = Ok sawn.
Hypothesis Hheld :
  Permissions_ForServiceAccount (repo sas) (actor r) st = Ok held.
Hypothesis Hroles :
  Forall2 (fun roleID rps => Permissions_ForRole (repo sas) roleID st = Ok rps)
          (RolesIDs sawn) rolesPs.

Lemma HasAllOwnerRolesPermissions_ok :
  HasAllOwnerRolesPermissions sas (actor r) (RolesIDs sawn) st
  = (Ok (allHas (map (fun p => Permission.IsPresent p held)
                     (map asOwner (concat rolesPs)))), st).
Proof.
  unfold HasAllOwnerRolesPermissions, bind.
  rewrite (rolesPermissions_ok _ _ _ _ Hroles). simpl.
  by apply HasAllOwnerPermissions_ok.
Qed.

Lemma process_rejects_roles :
  ¬ ownsAll held (concat rolesPs) →
  processServiceAccountWithNestedFromReq r sas st
  = (Err UserDoesntHaveAllPermissionsError, st).
Proof.
  intros Hnot. unfold processServiceAccountWithNestedFromReq.
  unfold bind at 1. unfold read at 1. rewrite Hbody.
  unfold bind at 1. fold (actor r).
  rewrite HasAllOwnerRolesPermissions_ok, not_ownsAll_allHas by done.
  reflexivity.
Qed.

Lemma process_rejects_inline (ps : list Permission.t) :
  BuildPermissions (PermissionsStrings sawn) = Ok ps →
  ¬ ownsAll held ps →
  processServiceAccountWithNestedFromReq r sas st
  = (Err UserDoesntHaveAllPermissionsError, st).
Proof.
  intros Hps Hnot.
  destruct (ownsAll_dec held (concat rolesPs)) as [Hown|Hown];
    [|by apply process_rejects_roles].
  unfold processServiceAccountWithNestedFromReq.
  unfold bind at 1. unfold read at 1. rewrite Hbody.
  unfold bind at 1. fold (actor r).
  rewrite HasAllOwnerRolesPermissions_ok.
  apply allHas_owner in Hown. rewrite Hown. simpl.
  unfold bind at 1. unfold read at 1. rewrite Hps.
  unfold bind at 1.
  rewrite (HasAllOwnerPermissions_ok _ _ _ _ Hheld). simpl.
  by rewrite owner_checks_applyAliases, not_ownsAll_allHas.
Qed.
End Authorize.

(** C1.  A create request whose acting account does not own (hold at Owner
    level) every permission of every role it binds, or every inline
    permission it grants, is answered with the insufficient-permission error
    (status 403) and the store is left as it was: no account is created.
    In particular the holder of [svc::Lender::act::res] alone is refused the
    inline permission [svc::Owner::act::res].  And whatever makes the
    authorization step fail, the handler writes nothing. *)
Theorem create_rejected_without_owner_grants :
  (∀ (sas : serviceAccounts) (rnd : Entropy) (r : Request) (st : Store)
     (sawn : ServiceAccountWithNested) (held : list Permission.t)
     (rolesPs : list (list Permission.t)),
     decodedBody r = Ok sawn →
     Permissions_ForServiceAccount (repo sas) (actor r) st = Ok held →
     Forall2 (fun roleID rps => Permissions_ForRole (repo sas) roleID st = Ok rps)
             (RolesIDs sawn) rolesPs →
     (¬ ownsAll held (concat rolesPs)
      ∨ ∃ ps, BuildPermissions (PermissionsStrings sawn) = Ok ps
              ∧ ¬ ownsAll held ps) →
     processServiceAccountWithNestedFromReq r sas st
     = (Err UserDoesntHaveAllPermissionsError, st)
     ∧ serviceAccountsCreateHandler sas rnd r st
       = (Responded (WriteHeader StatusForbidden newWriter), st))
  ∧ serviceAccountsCreateHandler (pgSas noProvider) someEntropy
      escalationRequest lenderStore
    = (Responded (WriteHeader StatusForbidden newWriter), lenderStore)
  ∧ (∀ (sas : serviceAccounts) (rnd : Entropy) (r : Request) (st : Store),
       isOk (fst (processServiceAccountWithNestedFromReq r sas st)) = false →
       snd (serviceAccountsCreateHandler sas rnd r st) = st).
Proof.
  split_and!; [|by vm_compute|].
  - intros sas rnd r st sawn held rolesPs Hbody Hheld Hroles Hnot.
    assert (Hprocess : processServiceAccountWithNestedFromReq r sas st
                       = (Err UserDoesntHaveAllPermissionsError, st)).
    { destruct Hnot as [Hnot|(ps & Hps & Hnot)].
      - eapply process_rejects_roles; eauto.
      - eapply process_rejects_inline; eauto. }
    split; [done|].
    unfold serviceAccountsCreateHandler. by rewrite Hprocess.
  - intros sas rnd r st Hfail.
    pose proof (readOnly_process r sas st) as Hro.
    unfold serviceAccountsCreateHandler.
    destruct (processServiceAccountWithNestedFromReq r sas st)
      as [[sawn|e|msg] st1]; simpl in *; done.
Qed.

(** ** Transactions *)

Lemma WithPGTx_failure {A} (repo : All) (fn : All → M A) (st : Store)
  (o : outcome A) (st' : Store) :
  WithPGTx repo fn st = (o, st') → isOk o = false → st' = st.
Proof.
  unfold WithPGTx.
  destruct (fn repo st) as [[a|e|msg] st1]; intros [= <- <-]; done.
Qed.

Lemma WithPGTx_success {A} (repo : All) (fn : All → M A) (st : Store) (a : A)
  (st' : Store) :
  WithPGTx repo fn st = (Ok a, st') → fn repo st = (Ok a, st').
Proof.
  unfold WithPGTx.
  destruct (fn repo st) as [[a1|e|msg] st1]; intros [= <- <-]; done.
Qed.

(** C3.  [CreateWithNested] and [UpdateWithNested] are atomic: whenever
    either ends in anything but success, whichever step failed, the store
    afterwards is the store before; no account, base role, binding or
    permission written on the way remains. *)
Theorem nested_writes_are_atomic (sas : serviceAccounts) (rnd : Entropy)
  (sawn : ServiceAccountWithNested) (st : Store) :
  (∀ o st', CreateWithNested sas rnd sawn st = (o, st') →
            isOk o = false → st' = st)
  ∧ (∀ o st', UpdateWithNested sas sawn st = (o, st') →
              isOk o = false → st' = st).
Proof.
  split; intros o st'; apply WithPGTx_failure.
Qed.

(** ** Updates *)

Lemma bind_Ok {A B} (m : M A) (k : A → M B) (st st' : Store) (b : B) :
  bind m k st = (Ok b, st') →
  ∃ a st1, m st = (Ok a, st1) ∧ k a st1 = (Ok b, st').
Proof.
  unfold bind. destruct (m st) as [[a|e|msg] st1]; [|done..].
  intros Hk. by exists a, st1.
Qed.

Lemma read_Ok {A} (f : Store → outcome A) (st st' : Store) (a : A) :
  read f st = (Ok a, st') → f st = Ok a ∧ st' = st.
Proof. unfold read. by intros [= -> ->]. Qed.

Lemma write_Ok (f : Store → outcome Store) (st st' : Store) (u : unit) :
  write f st = (Ok u, st') → f st = Ok st'.
Proof. unfold write. destruct (f st); [|done..]. by intros [= _ ->]. Qed.

Lemma ret_Ok {A} (a b : A) (st st' : Store) :
  ret a st = (Ok b, st') → a = b ∧ st' = st.
Proof. unfold ret. by intros [= -> ->]. Qed.

Section Rebinding.
Variable storage : All.
Hypothesis contract : BindingsContract storage.

(** The rebinding loop of [UpdateWithNested]: the requested roles other
    than the base role are bound, in order. *)
Lemma rebind_loop (saID base : string) (rolesIDs : list string) :
  ∀ (st st' : Store) (u : unit),
    forEach (fun roleID =>
               if bool_decide (roleID = base) then ret tt
               else write (Roles_Bind storage (RoleBinding.mk saID roleID)))
            rolesIDs st
    = (Ok u, st') →
    role_bindings st'
    = role_bindings st
      ++ map (RoleBinding.mk saID)
           (List.filter (fun roleID => negb (bool_decide (roleID = base)))
                        rolesIDs).
Proof.
  induction rolesIDs as [|roleID rolesIDs IH]; intros st st' u Hrun; simpl in *.
  - apply ret_Ok in Hrun as [_ ->]. by rewrite app_nil_r.
  - apply bind_Ok in Hrun as (u1 & st1 & Hstep & Hrest).
    apply IH in Hrest. rewrite Hrest.
    destruct (bool_decide (roleID = base)); simpl.
    + by apply ret_Ok in Hstep as [_ ->].
    + apply write_Ok, (bind_appends _ contract) in Hstep.
      rewrite Hstep. by rewrite <- app_assoc.
Qed.

(** Inserting the permissions leaves the bindings alone. *)
Lemma createPermissions_bindings (base : string) (ps : list Permission.t) :
  ∀ (st st' : Store) (ps' : list Permission.t),
    createPermissions storage base ps st = (Ok ps', st') →
    role_bindings st' = role_bindings st.
Proof.
  induction ps as [|p ps IH]; intros st st' ps' Hrun; simpl in *.
  - by apply ret_Ok in Hrun as [_ ->].
  - apply bind_Ok in Hrun as (u1 & st1 & Hstep & Hrest).
    apply bind_Ok in Hrest as (rest' & st2 & Hrest & Hret).
    apply ret_Ok in Hret as [_ ->].
    apply IH in Hrest. rewrite Hrest.
    by apply write_Ok, (create_permission_keeps_bindings _ contract) in Hstep.
Qed.

(** The bindings that a successful [UpdateWithNested] leaves: the old rows
    of other accounts and to the base role, then one row per requested
    role other than the base role. *)
Lemma UpdateWithNested_bindings (provider : string → outcome AuthResult.t)
  (sawn sawn' : ServiceAccountWithNested) (st st' : Store)
  (sa : ServiceAccount.t) :
  ServiceAccounts_Get storage (ID sawn) st = Ok sa →
  UpdateWithNested {| repo := storage; oauth2Provider := provider |} sawn st
  = (Ok sawn', st') →
  role_bindings st'
  = List.filter
      (fun b =>
         negb (bool_decide (RoleBinding.ServiceAccountID b = ID sawn))
         || bool_decide (RoleBinding.RoleID b = ServiceAccount.BaseRoleID sa))
      (role_bindings st)
    ++ map (RoleBinding.mk (ID sawn))
         (List.filter
            (fun roleID =>
               negb (bool_decide (roleID = ServiceAccount.BaseRoleID sa)))
            (RolesIDs sawn)).
Proof.
  intros Hget Hupd. apply WithPGTx_success in Hupd.
  unfold updateWithNestedFn in Hupd. simpl in Hupd.
  apply bind_Ok in Hupd as (sa0 & st0 & Hread & Hupd).
  apply read_Ok in Hread as [Hget0 ->].
  rewrite Hget in Hget0. injection Hget0 as <-.
  pose proof (get_returns_id _ contract _ _ _ Hget) as Hid.
  set (sa1 := ServiceAccount.setEmail (Name sawn)
                (ServiceAccount.setName (Name sawn) sa)) in *.
  apply bind_Ok in Hupd as (u1 & st1 & Hupdate & Hupd).
  apply write_Ok in Hupdate.
  apply bind_Ok in Hupd as (u2 & st2 & Hdrop & Hupd).
  apply write_Ok in Hdrop.
  apply bind_Ok in Hupd as (u3 & st3 & Hloop & Hupd).
  apply rebind_loop in Hloop.
  apply bind_Ok in Hupd as (u4 & st4 & Hdropp & Hupd).
  apply write_Ok in Hdropp.
  apply bind_Ok in Hupd as (ps & st5 & Hps & Hret).
  apply ret_Ok in Hret as [_ ->].
  apply createPermissions_bindings in Hps.
  apply (drop_permissions_keeps_bindings _ contract) in Hdropp.
  assert (Hget1 : ServiceAccounts_Get storage (ID sawn) st1 = Ok sa1).
  { replace (ID sawn) with (ServiceAccount.ID sa1) by done.
    apply (update_then_get _ contract _ _ _ Hupdate).
    change (ServiceAccount.ID sa1) with (ServiceAccount.ID sa).
    by rewrite Hid, Hget. }
  apply (drop_bindings_keeps_base _ contract _ _ _ _ Hdrop) in Hget1.
  apply (update_keeps_bindings _ contract) in Hupdate.
  rewrite Hps, Hdropp, Hloop, Hget1, Hupdate.
  change (ServiceAccount.BaseRoleID sa1) with (ServiceAccount.BaseRoleID sa).
  change (ServiceAccount.ID sa1) with (ServiceAccount.ID sa).
  by rewrite Hid.
Qed.
End Rebinding.

Lemma bound_elem_of (st : Store) (saID roleID : string) :
  bound st saID roleID = true
  ↔ RoleBinding.mk saID roleID ∈ role_bindings st.
Proof.
  unfold bound. rewrite existsb_exists. split.
  - intros (b & Hb & Heq). apply bool_decide_eq_true in Heq. subst b.
    by apply list_elem_of_In.
  - intros Hin. exists (RoleBinding.mk saID roleID).
    split; [by apply list_elem_of_In | by rewrite bool_decide_true].
Qed.

Lemma filter_filter_implied {A} (f g : A → bool) (l : list A) :
  (∀ x, f x = true → g x = true) →
  List.filter f (List.filter g l) = List.filter f l.
Proof.
  intros Himp. induction l as [|x l IH]; [done|]. simpl.
  destruct (g x) eqn:Hg; simpl.
  - by rewrite IH.
  - destruct (f x) eqn:Hf; [|done]. apply Himp in Hf. congruence.
Qed.

Lemma filter_none {A} (f : A → bool) (l : list A) :
  (∀ x, x ∈ l → f x = false) → List.filter f l = [].
Proof.
  induction l as [|x l IH]; [done|]. intros Hall. simpl.
  rewrite (Hall x) by (by left). apply IH. intros y Hy. apply Hall. by right.
Qed.

(** C4.  [UpdateWithNested] replaces the role membership of an existing
    account: with a storage collaborator that meets its contract, after a
    successful update the account is bound to exactly its base role and
    the requested roles (so a role that was bound and is not requested is
    gone); the rows binding it to its base role are the ones it had,
    neither dropped nor added to when the base role is among the requested
    ones; the bindings of other accounts are untouched. *)
Theorem UpdateWithNested_replaces_bindings
  (storage : All) (provider : string → outcome AuthResult.t)
  (sawn sawn' : ServiceAccountWithNested) (st st' : Store)
  (sa : ServiceAccount.t) :
  BindingsContract storage →
  ServiceAccounts_Get storage (ID sawn) st = Ok sa →
  bound st (ID sawn) (ServiceAccount.BaseRoleID sa) = true →
  UpdateWithNested {| repo := storage; oauth2Provider := provider |} sawn st
  = (Ok sawn', st') →
  (∀ roleID,
     bound st' (ID sawn) roleID = true
     ↔ roleID = ServiceAccount.BaseRoleID sa ∨ roleID ∈ RolesIDs sawn)
  ∧ List.filter
      (fun b => bool_decide
                  (b = RoleBinding.mk (ID sawn) (ServiceAccount.BaseRoleID sa)))
      (role_bindings st')
    = List.filter
        (fun b => bool_decide
                    (b = RoleBinding.mk (ID sawn) (ServiceAccount.BaseRoleID sa)))
        (role_bindings st)
  ∧ (∀ other roleID, other ≠ ID sawn →
                     bound st' other roleID = bound st other roleID).
Proof.
  intros contract Hget Hbase Hupd.
  pose proof (UpdateWithNested_bindings storage contract provider _ _ _ _ _
                Hget Hupd) as Hrows.
  split_and!.
  - intros roleID. rewrite bound_elem_of, Hrows, elem_of_app.
    rewrite !list_elem_of_In, filter_In, in_map_iff. simpl.
    rewrite bool_decide_true by done. simpl. split.
    + intros [[_ Hb]|(r & [= <-] & Hr)].
      * left. by apply bool_decide_eq_true in Hb.
      * apply filter_In in Hr as [Hr _]. by right.
    + intros [->|Hr].
      * left. split; [|by rewrite bool_decide_true].
        apply list_elem_of_In. by apply bound_elem_of.
      * destruct (decide (roleID = ServiceAccount.BaseRoleID sa)) as [->|Hne].
        -- left. split; [|by rewrite bool_decide_true].
           apply list_elem_of_In. by apply bound_elem_of.
        -- right. exists roleID. split; [done|]. apply filter_In.
           split; [done|]. by rewrite bool_decide_false.
  - rewrite Hrows, List.filter_app, filter_filter_implied.
    + rewrite (filter_none _ (map _ _)); [by rewrite app_nil_r|].
      intros b Hb. apply list_elem_of_In, in_map_iff in Hb as (r & <- & Hr).
      apply filter_In in Hr as [_ Hr]. apply negb_true_iff in Hr.
      apply bool_decide_eq_false in Hr. apply bool_decide_eq_false. congruence.
    + intros b Hb. apply bool_decide_eq_true in Hb. subst b. simpl.
      by rewrite !bool_decide_true.
  - intros other roleID Hne.
    apply eq_true_iff_eq. rewrite !bound_elem_of, Hrows, elem_of_app.
    rewrite !list_elem_of_In, filter_In, in_map_iff. simpl. split.
    + intros [[Hin _]|(r & [= Heq _] & _)]; [done | congruence].
    + intros Hin. left. split; [done|]. by rewrite bool_decide_false.
Qed.

(** Every successful update hands the submitted name to the storage
    collaborator as the name and as the email of the account; the
    submitted email is not used. *)
Lemma UpdateWithNested_writes_name_twice (sas : serviceAccounts)
  (sawn sawn' : ServiceAccountWithNested) (st st' : Store) :
  UpdateWithNested sas sawn st = (Ok sawn', st') →
  ∃ sa st1,
    ServiceAccounts_Get (repo sas) (ID sawn) st = Ok sa
    ∧ ServiceAccounts_Update (repo sas)
        (ServiceAccount.setEmail (Name sawn)
           (ServiceAccount.setName (Name sawn) sa)) st
      = Ok st1.
Proof.
  intros Hupd. apply WithPGTx_success in Hupd.
  unfold updateWithNestedFn in Hupd. simpl in Hupd.
  apply bind_Ok in Hupd as (sa & st0 & Hread & Hupd).
  apply read_Ok in Hread as [Hget ->].
  apply bind_Ok in Hupd as (u1 & st1 & Hupdate & _).
  apply write_Ok in Hupdate. by exists sa, st1.
Qed.

(** The relational store meets the contract. *)
Lemma findAccount_Some (f : ServiceAccount.t → bool) (st : Store)
  (sa : ServiceAccount.t) :
  PG.findAccount f st = Ok sa → sa ∈ service_accounts st ∧ f sa = true.
Proof.
  unfold PG.findAccount. destruct (List.find _ _) as [x|] eqn:Hfind; [|done].
  intros [= <-]. apply find_some in Hfind as [Hin Hf].
  split; [by apply list_elem_of_In | done].
Qed.

Lemma find_updated (sa : ServiceAccount.t) (l : list ServiceAccount.t) :
  is_Some (List.find
             (fun x => bool_decide (ServiceAccount.ID x = ServiceAccount.ID sa)) l) →
  List.find (fun x => bool_decide (ServiceAccount.ID x = ServiceAccount.ID sa))
            (map (fun x => if bool_decide (ServiceAccount.ID x = ServiceAccount.ID sa)
                           then sa else x) l)
  = Some sa.
Proof.
  induction l as [|y l IH]; simpl; [by intros [? ?]|].
  destruct (bool_decide (ServiceAccount.ID y = ServiceAccount.ID sa)) eqn:Hy.
  - intros _. by rewrite bool_decide_true.
  - intros Hsome. rewrite Hy. apply IH, Hsome.
Qed.

Lemma PG_contract : BindingsContract PG.repo.
Proof.
  split; simpl.
  - intros id st sa Hget. apply findAccount_Some in Hget as [_ Hid].
    by apply bool_decide_eq_true in Hid.
  - intros sa st st' [= <-] Hsome. unfold PG.Get, PG.findAccount in *. simpl.
    rewrite find_updated; [done|].
    by destruct (List.find _ _).
  - by intros sa st st' [= <-].
  - intros id st st' sa [= <-] Hget. simpl. unfold PG.isBaseRoleOf.
    by rewrite Hget.
  - by intros b st st' [= <-].
  - by intros roleID st st' [= <-].
  - intros p st st'. unfold PG.CreatePermission.
    destruct (existsb _ _); [|done]. by intros [= <-].
Qed.

(** C5.  The stored email after an update.  The account [sa-u] is updated
    with the name [new name] and the email [new@x.com]: the update
    succeeds, the stored name is the submitted name, and the stored email
    is the submitted name as well, not the submitted email. *)
Theorem UpdateWithNested_stores_name_as_email :
  ∃ sawn' st' sa,
    UpdateWithNested (pgSas noProvider) rebindRequest boundStore
    = (Ok sawn', st')
    ∧ PG.Get "sa-u" st' = Ok sa
    ∧ ServiceAccount.Name sa = Name rebindRequest
    ∧ ServiceAccount.Email sa = Name rebindRequest
    ∧ ServiceAccount.Email sa ≠ Email rebindRequest.
Proof.
  eexists _, _, _. split_and!; [by vm_compute..|].
  by vm_compute.
Qed.

(** C6.  A first OAuth2 login.  The provider authenticates the token of
    [new@x.com], for which the store has no account: exactly one account is
    added, its name and its email are the email of the provider, the id
    returned is its id, and its authentication type is the zero value of
    the type, which is not [OAuth2] (nor a valid type at all). *)
Theorem first_login_leaves_authentication_type_unset :
  ∃ auth st' sa,
    AuthenticateAccessToken (pgSas knownToken) someEntropy "tok" lenderStore
    = (Ok auth, st')
    ∧ service_accounts st' = service_accounts lenderStore ++ [sa]
    ∧ ServiceAccount.Name sa = "new@x.com"
    ∧ ServiceAccount.Email sa = "new@x.com"
    ∧ AccessTokenAuth.ServiceAccountID auth = ServiceAccount.ID sa
    ∧ ServiceAccount.AuthenticationType sa = ""
    ∧ ServiceAccount.AuthenticationType sa ≠ AuthenticationTypes.OAuth2
    ∧ AuthenticationType_Valid (ServiceAccount.AuthenticationType sa) = false.
Proof.
  eexists _, _, _. split_and!; by vm_compute.
Qed.

(** Whatever the repository and the provider: when no account has the
    email of the authenticated token, the account handed to [Create] is
    the struct literal of the source, whose authentication type is the
    zero value. *)
Lemma first_login_creates_untyped_account (sas : serviceAccounts)
  (rnd : Entropy) (accessToken : string) (authResult : AuthResult.t)
  (st : Store) :
  oauth2Provider sas accessToken = Ok authResult →
  ServiceAccounts_ForEmail (repo sas) (AuthResult.Email authResult) st
  = Err EntityNotFoundError →
  AuthenticateAccessToken sas rnd accessToken st
  = bind (Create sas rnd
            (ServiceAccount.mk "" (AuthResult.Email authResult) "" ""
               (AuthResult.Email authResult) (AuthResult.Picture authResult)
               "" ""))
         (fun sa =>
            ret (AccessTokenAuth.mk (ServiceAccount.ID sa)
                   (AuthResult.AccessToken authResult)
                   (AuthResult.Email authResult)))
         st.
Proof.
  intros Hauth Hnone. unfold AuthenticateAccessToken.
  unfold bind at 1. unfold read at 1. rewrite Hauth. by rewrite Hnone.
Qed.

(** C7.  A key pair that matches no account.  The use case fails with
    [EntityNotFoundError] and writes nothing; the middleware answers 500,
    not 401, and does not call the next handler. *)
Theorem unknown_key_pair_answers_500 :
  AuthenticateKeyPair (pgSas noProvider) "nobody" "nothing" lenderStore
  = (Err EntityNotFoundError, lenderStore)
  ∧ authMiddleware (authUseCases (pgSas noProvider) someEntropy)
      (headerRequest "KeyPair nobody:nothing") lenderStore
    = (Responded (WriteHeader StatusInternalServerError newWriter), lenderStore)
  ∧ StatusInternalServerError ≠ StatusUnauthorized.
Proof. split_and!; by vm_compute. Qed.

(** Whatever the use case and whatever the error, a failed key-pair
    authentication is answered with 500. *)
Lemma key_pair_failure_is_500 (sasUC : ServiceAccountsAuth) (st st' : Store)
  (e : error) :
  uc_AuthenticateKeyPair sasUC "nobody" "nothing" st = (Err e, st') →
  authMiddleware sasUC (headerRequest "KeyPair nobody:nothing") st
  = (Responded (WriteHeader StatusInternalServerError newWriter), st').
Proof.
  intros Hfail. cbv -[uc_AuthenticateKeyPair]. by rewrite Hfail.
Qed.

(** C8.  A key-pair credential without a colon.  The header splits into a
    scheme and a credential, the scheme is [KeyPair], and reading the
    second half of the credential panics: no 401 is written (the next
    handler is not called either). *)
Theorem key_pair_without_colon_panics (sasUC : ServiceAccountsAuth)
  (st : Store) :
  authMiddleware sasUC (headerRequest "KeyPair abc") st
  = (Crashed "index out of range", st).
Proof. reflexivity. Qed.

(** A header that is missing, that does not split into a scheme and a
    credential, or whose scheme is neither [KeyPair] nor [Bearer], is
    answered with 401 and nothing else happens. *)
Lemma authMiddleware_rejects_bad_header (sasUC : ServiceAccountsAuth)
  (r : Request) (st : Store) :
  (Authorization r = ""
   ∨ length (strings_Split (Authorization r) " ") ≠ 2
   ∨ ∃ scheme credential,
       strings_Split (Authorization r) " " = [scheme; credential]
       ∧ scheme ≠ "KeyPair" ∧ scheme ≠ "Bearer") →
  authMiddleware sasUC r st
  = (Responded (WriteHeader StatusUnauthorized newWriter), st).
Proof.
  intros Hbad. unfold authMiddleware.
  destruct (bool_decide (Authorization r = "")) eqn:Hempty; [done|].
  destruct (bool_decide (length (strings_Split (Authorization r) " ") = 2))
    eqn:Hlen; [|done].
  simpl.
  apply bool_decide_eq_false in Hempty. apply bool_decide_eq_true in Hlen.
  destruct Hbad as [?|[?|(scheme & credential & Hsplit & Hkp & Hb)]];
    [done..|].
  rewrite Hsplit. simpl.
  by rewrite !bool_decide_false.
Qed.

(** ** The embeddable middleware *)

(** C9.  The header that is forwarded.  A guarded request comes with the
    header [Bearer abc]: the request that goes out to Will.IAM carries the
    header [Bearer], the first space-separated field of the caller's header
    and not the header itself; a Will.IAM that grants the permission to
    the bearer of [abc] therefore answers 401 and the caller is denied. *)
Theorem ServeHTTP_forwards_first_field_only :
  (∀ (net : william.Net) (p : william.permission) (url : string)
     (w : ResponseWriter),
     map william.outAuthorization
         (snd (william.ServeHTTP net (william.mkMiddleware p url true) w
                 (headerRequest "Bearer abc")))
     = if william.acceptsURL net
            (url ++ "/permissions/has?permission="
                 ++ william.QueryEscape net
                      (william.build p (headerRequest "Bearer abc")))%string
       then ["Bearer"] else [])
  ∧ william.ServeHTTP iam guard newWriter (headerRequest "Bearer abc")
    = (Responded (WriteHeader StatusUnauthorized newWriter),
       [william.mkOutRequest "GET"
          "http://localhost:4040/permissions/has?permission=service::RL::Action::*"
          "Bearer"])
  ∧ "Bearer" ≠ Authorization (headerRequest "Bearer abc").
Proof.
  split_and!; [|by vm_compute..].
  intros net p url w. unfold william.ServeHTTP. simpl.
  unfold william.getAuthStatus. simpl.
  destruct (william.acceptsURL net _); simpl; [|done].
  destruct (william.Do net _) as [res|e|msg]; simpl; [|done..].
  by destruct (negb (bool_decide (william.StatusCode res = StatusOK))).
Qed.

(** C10.  A middleware whose [enabled] flag is false hands every request
    to the next handler as it is, with the response untouched and nothing
    sent to Will.IAM, whatever the request carries; and false is what the
    flag is when the configuration does not set [william.enabled]. *)
Theorem disabled_middleware_bypasses :
  (∀ (net : william.Net) (m : william.Middleware) (w : ResponseWriter)
     (r : Request),
     william.enabled m = false →
     william.ServeHTTP net m w r = (CalledNext w r, []))
  ∧ (∀ (config : william.Viper) (ownershipLevel action : string)
       (resource : Request → string),
       william.overrides config !! "william.enabled" = None →
       william.enabled
         (william.NewMiddleware config ownershipLevel action resource)
       = false).
Proof.
  split.
  - intros net m w r Hoff. unfold william.ServeHTTP. by rewrite Hoff.
  - intros config ownershipLevel action resource Hunset.
    unfold william.NewMiddleware, william.configure, william.GetBool,
      william.Get, william.SetDefault. simpl.
    rewrite Hunset.
    rewrite lookup_insert_ne by done.
    by rewrite lookup_insert_eq.
Qed.

(** An enabled middleware decides on the answer of Will.IAM: with a
    non-empty first field in the header and a request that goes through,
    one [GET] to [<iamURL>/permissions/has?permission=<escaped permission>]
    is sent; the next handler is called exactly when the status is 200,
    with the [x-email] header echoed when present and the [x-access-token]
    header echoed when present and different from the field that was
    sent; any other status is the status of the answer, with no header. *)
Lemma ServeHTTP_decides_on_status (net : william.Net) (m : william.Middleware)
  (w : ResponseWriter) (r : Request) (res : william.Response) :
  let url := (william.iamURL m ++ "/permissions/has?permission="
              ++ william.QueryEscape net (william.build (william.perm m) r))%string in
  let req := william.mkOutRequest "GET" url (william.accessTokenFromHeader r) in
  william.enabled m = true →
  william.accessTokenFromHeader r ≠ "" →
  william.acceptsURL net url = true →
  william.Do net req = Ok res →
  snd (william.ServeHTTP net m w r) = [req]
  ∧ (william.StatusCode res ≠ StatusOK →
     fst (william.ServeHTTP net m w r)
     = Responded (WriteHeader (william.StatusCode res) w))
  ∧ (william.StatusCode res = StatusOK →
     ∃ w', fst (william.ServeHTTP net m w r) = CalledNext w' r
           ∧ statusCode w' = statusCode w
           ∧ (william.xEmail res ≠ "" →
              Header w' !! "x-email" = Some (william.xEmail res))
           ∧ (william.xAccessToken res ≠ "" →
              william.xAccessToken res ≠ william.accessTokenFromHeader r →
              Header w' !! "x-access-token" = Some (william.xAccessToken res))).
Proof.
  intros url req Hon Htoken Hurl Hdo.
  unfold william.ServeHTTP, william.getAuthStatus.
  rewrite Hon, bool_decide_false by done. simpl.
  fold url. rewrite Hurl. simpl. fold req. rewrite Hdo. simpl.
  destruct (bool_decide (william.StatusCode res = StatusOK)) eqn:Hcode; simpl.
  - apply bool_decide_eq_true in Hcode. split_and!; [done..|].
    intros _. eexists. split; [reflexivity|]. split_and!.
    + by repeat case_match.
    + intros Hemail. rewrite (bool_decide_false _ Hemail). simpl.
      apply lookup_insert_eq.
    + intros Hpresent Hnew.
      rewrite (bool_decide_false _ Hpresent), (bool_decide_false _ Hnew).
      simpl. case_match; simpl.
      * by rewrite lookup_insert_ne, lookup_insert_eq.
      * apply lookup_insert_eq.
  - apply bool_decide_eq_false in Hcode. split_and!; done.
Qed.

(** ** The statements at the scenarios *)

Lemma bad_header_witness :
  authMiddleware (authUseCases (pgSas noProvider) someEntropy)
    (headerRequest "Basic dXNlcjpwYXNz") lenderStore
  = (Responded (WriteHeader StatusUnauthorized newWriter), lenderStore).
Proof.
  apply authMiddleware_rejects_bad_header.
  right. right. exists "Basic", "dXNlcjpwYXNz". by vm_compute.
Defined.

Lemma writes_name_twice_witness :
  ∃ sa st1,
    ServiceAccounts_Get PG.repo "sa-u" boundStore = Ok sa
    ∧ ServiceAccounts_Update PG.repo
        (ServiceAccount.setEmail "new name"
           (ServiceAccount.setName "new name" sa)) boundStore
      = Ok st1.
Proof.
  apply (UpdateWithNested_writes_name_twice (pgSas noProvider) rebindRequest
           rebindRequest boundStore reboundStore).
  reflexivity.
Defined.

Lemma first_login_witness :
  AuthenticateAccessToken (pgSas knownToken) someEntropy "tok" lenderStore
  = bind (Create (pgSas knownToken) someEntropy
            (ServiceAccount.mk "" "new@x.com" "" "" "new@x.com"
               "http://x.com/p.png" "" ""))
         (fun sa =>
            ret (AccessTokenAuth.mk (ServiceAccount.ID sa) "tok" "new@x.com"))
         lenderStore.
Proof.
  apply (first_login_creates_untyped_account (pgSas knownToken) someEntropy
           "tok" (AuthResult.mk "tok" "new@x.com" "http://x.com/p.png")
           lenderStore); reflexivity.
Defined.

Lemma decides_on_status_witness :
  snd (william.ServeHTTP iam guard newWriter (headerRequest "Bearer abc"))
  = [william.mkOutRequest "GET"
       "http://localhost:4040/permissions/has?permission=service::RL::Action::*"
       "Bearer"]
  ∧ fst (william.ServeHTTP iam guard newWriter (headerRequest "Bearer abc"))
    = Responded (WriteHeader StatusUnauthorized newWriter).
Proof.
  destruct (ServeHTTP_decides_on_status iam guard newWriter
              (headerRequest "Bearer abc")
              (william.mkResponse StatusUnauthorized "" "")
              eq_refl ltac:(by vm_compute) eq_refl eq_refl)
    as (Hsent & Hdenied & _).
  split; [exact Hsent|]. apply Hdenied. by vm_compute.
Defined.

(** The lender is refused: the hypotheses of C1 hold at the scenario. *)
Lemma create_rejected_witness :
  processServiceAccountWithNestedFromReq escalationRequest (pgSas noProvider)
    lenderStore
  = (Err UserDoesntHaveAllPermissionsError, lenderStore)
  ∧ serviceAccountsCreateHandler (pgSas noProvider) someEntropy
      escalationRequest lenderStore
    = (Responded (WriteHeader StatusForbidden newWriter), lenderStore).
Proof.
  apply (proj1 create_rejected_without_owner_grants (pgSas noProvider)
           someEntropy escalationRequest lenderStore
           (mkSawn "" "escalated" "" "" ["svc::Owner::act::res"] ∅ [] [] []
                   AuthenticationTypes.KeyPair)
           [lenderOfRes] []).
  - reflexivity.
  - reflexivity.
  - constructor.
  - right. exists [ownerOfRes]. split; [reflexivity|].
    intros Hown. specialize (Hown ownerOfRes ltac:(by left)).
    vm_compute in Hown. discriminate.
Defined.

(** The Owner-level check of the lender's request, on the heap. *)
Lemma HasAllOwnerPermissions_witness :
  ∃ (b : bool) (h' : Mem.heap),
    Mem.HasAllOwnerPermissions (pgSas noProvider) "sa-lender" 0 requestHeap
      lenderStore
    = (Ok (b, h'), lenderStore)
    ∧ b = false
    ∧ h' !! 0 = Some [lenderOfRes; ownerOfRes].
Proof.
  destruct (HasAllOwnerPermissions_iff_owner_present (pgSas noProvider)
              "sa-lender" lenderStore [lenderOfRes] requestHeap 0
              [lenderOfRes; ownerOfRes] eq_refl eq_refl)
    as (b & h' & Heq & _ & Hfalse & _ & Hsame & _).
  exists b, h'. split; [exact Heq|]. split; [|exact Hsame].
  apply (Hfalse 0 lenderOfRes); reflexivity.
Defined.

(** The third of three permissions is refused.  On create, the closure had
    created the account, its base role and two permissions; on update, it
    had renamed the account, dropped the binding to [R1] and inserted two
    permissions.  None of it remains. *)
Lemma atomic_create_witness :
  (fst (CreateWithNested refusingThird someEntropy threePermissions lenderStore)
   = Err (OtherError "insert refused")
   ∧ length (service_accounts abortedStore) = 2
   ∧ length (roles abortedStore) = 2
   ∧ length (permissions abortedStore) = 3
   ∧ snd (CreateWithNested refusingThird someEntropy threePermissions
            lenderStore)
     = lenderStore)
  ∧ (fst (UpdateWithNested refusingThirdOfUpdate rebindWithGrants boundStore)
     = Err (OtherError "insert refused")
     ∧ bound abortedUpdateStore "sa-u" "R1" = false
     ∧ length (permissions abortedUpdateStore) = 2
     ∧ snd (UpdateWithNested refusingThirdOfUpdate rebindWithGrants boundStore)
       = boundStore).
Proof.
  split.
  - split_and!; [by vm_compute..|].
    apply (proj1 (nested_writes_are_atomic refusingThird someEntropy
                    threePermissions lenderStore)
                 (fst (CreateWithNested refusingThird someEntropy
                         threePermissions lenderStore))).
    + reflexivity.
    + reflexivity.
  - split_and!; [by vm_compute..|].
    apply (proj2 (nested_writes_are_atomic refusingThirdOfUpdate someEntropy
                    rebindWithGrants boundStore)
                 (fst (UpdateWithNested refusingThirdOfUpdate rebindWithGrants
                         boundStore))).
    + reflexivity.
    + reflexivity.
Defined.

(** From [{R1, R2}] to [{R2, R3}]. *)
Lemma rebind_witness :
  (∀ roleID,
     bound reboundStore "sa-u" roleID = true
     ↔ roleID = "role-u" ∨ roleID ∈ ["R2"; "R3"])
  ∧ List.filter (fun b => bool_decide (b = RoleBinding.mk "sa-u" "role-u"))
      (role_bindings reboundStore)
    = List.filter (fun b => bool_decide (b = RoleBinding.mk "sa-u" "role-u"))
        (role_bindings boundStore)
  ∧ (∀ other roleID, other ≠ "sa-u" →
       bound reboundStore other roleID = bound boundStore other roleID).
Proof.
  apply (UpdateWithNested_replaces_bindings PG.repo noProvider rebindRequest
           rebindRequest boundStore reboundStore
           (ServiceAccount.mk "sa-u" "old name" "k2" "s2" "old@x.com" ""
              "role-u" AuthenticationTypes.OAuth2)).
  - exact PG_contract.
  - reflexivity.
  - reflexivity.
  - reflexivity.
Defined.

(** The default configuration leaves the middleware disabled, and it lets
    a request through without a word to Will.IAM. *)
Lemma disabled_bypass_witness :
  william.enabled (william.NewMiddleware defaultConfig "RL" "Action"
                     (fun _ => "*"))
  = false
  ∧ william.ServeHTTP iam
      (william.NewMiddleware defaultConfig "RL" "Action" (fun _ => "*"))
      newWriter (headerRequest "Bearer abc")
    = (CalledNext newWriter (headerRequest "Bearer abc"), []).
Proof.
  pose proof (proj2 disabled_middleware_bypasses defaultConfig "RL" "Action"
                    (fun _ => "*") eq_refl) as Hoff.
  split; [exact Hoff|].
  apply (proj1 disabled_middleware_bypasses). exact Hoff.
Defined.

(** * More properties *)

(** ** [strings.Split] on a one-byte separator *)

Lemma append_nil (s : string) : ("" ++ s = s)%string.
Proof. reflexivity. Qed.

Lemma append_String (a : Ascii.ascii) (s t : string) :
  (String a s ++ t = String a (s ++ t))%string.
Proof. reflexivity. Qed.

Lemma string_app_cons (cur : string) (a : Ascii.ascii) (s : string) :
  ((cur ++ String a "") ++ s = cur ++ String a s)%string.
Proof.
  induction cur as [|b cur IH]; [done|].
  rewrite !append_String. by f_equal.
Qed.

Lemma string_app_empty (s : string) : (s ++ "" = s)%string.
Proof.
  induction s as [|a s IH]; [done|]. rewrite append_String. by f_equal.
Qed.

Lemma prefix_char (c a : Ascii.ascii) (s : string) :
  String.prefix (String c "") (String a s) = bool_decide (c = a).
Proof.
  simpl. destruct (Ascii.ascii_dec c a) as [->|Hne].
  - rewrite bool_decide_true by done. by destruct s.
  - by rewrite bool_decide_false.
Qed.

(** The first piece is what precedes the first separator. *)
Lemma splitAux_head (c : Ascii.ascii) (s cur : string) :
  ∃ pieces,
    splitAux (String c "") 0 cur s = (cur ++ upTo c s)%string :: pieces.
Proof.
  revert cur. induction s as [|a s IH]; intros cur.
  - exists []. simpl. by rewrite string_app_empty.
  - cbn [splitAux upTo]. rewrite prefix_char.
    destruct (bool_decide (c = a)).
    + eexists. by rewrite string_app_empty.
    + destruct (IH (cur ++ String a "")%string) as [pieces ->].
      exists pieces. by rewrite string_app_cons.
Qed.

(** Without a separator there is one piece. *)
Lemma splitAux_whole (c : Ascii.ascii) (s cur : string) :
  hasChar c s = false →
  splitAux (String c "") 0 cur s = [(cur ++ s)%string].
Proof.
  revert cur. induction s as [|a s IH]; intros cur Hno.
  - simpl. by rewrite string_app_empty.
  - cbn [splitAux]. rewrite prefix_char. simpl in Hno.
    apply orb_false_iff in Hno as [-> Hno].
    rewrite IH by done. by rewrite string_app_cons.
Qed.

(** The pieces of [a ++ c ++ b] are [a], then the pieces of [b]. *)
Lemma splitAux_app (c : Ascii.ascii) (a b cur : string) :
  hasChar c a = false →
  splitAux (String c "") 0 cur (a ++ String c b)
  = (cur ++ a)%string :: splitAux (String c "") 0 "" b.
Proof.
  revert cur. induction a as [|x a IH]; intros cur Hno.
  - rewrite append_nil. cbn [splitAux].
    rewrite prefix_char, bool_decide_true by done.
    simpl. by rewrite string_app_empty.
  - simpl in Hno. apply orb_false_iff in Hno as [Hx Hno].
    rewrite append_String. cbn [splitAux]. rewrite prefix_char, Hx.
    rewrite IH by done. by rewrite string_app_cons.
Qed.

Lemma Split_whole (c : Ascii.ascii) (s : string) :
  hasChar c s = false → strings_Split s (String c "") = [s].
Proof. intros Hno. unfold strings_Split. by rewrite splitAux_whole. Qed.

Lemma Split_app (c : Ascii.ascii) (a b : string) :
  hasChar c a = false →
  strings_Split (a ++ String c b) (String c "")
  = a :: strings_Split b (String c "").
Proof. intros Hno. unfold strings_Split. by rewrite splitAux_app. Qed.

Lemma Split_head (c : Ascii.ascii) (s : string) :
  ∃ pieces, strings_Split s (String c "") = upTo c s :: pieces.
Proof. apply (splitAux_head c s ""). Qed.

Lemma upTo_hasChar (c : Ascii.ascii) (s : string) :
  hasChar c (upTo c s) = false.
Proof.
  induction s as [|a s IH]; [done|]. simpl.
  destruct (bool_decide (c = a)) eqn:Hc; [done|]. simpl. by rewrite Hc.
Qed.

Lemma upTo_whole (c : Ascii.ascii) (s : string) :
  hasChar c s = false → upTo c s = s.
Proof.
  induction s as [|a s IH]; [done|]. simpl. intros Hno.
  apply orb_false_iff in Hno as [-> Hno]. by rewrite IH.
Qed.

Lemma upTo_empty (c : Ascii.ascii) (s : string) :
  upTo c s = "" ↔ s = "" ∨ ∃ s', s = String c s'.
Proof.
  destruct s as [|a s]; simpl.
  - split; [by left | done].
  - destruct (bool_decide (c = a)) eqn:Hc.
    + apply bool_decide_eq_true in Hc as <-. split; [|done].
      intros _. right. by exists s.
    + apply bool_decide_eq_false in Hc. split; [done|].
      intros [?|(s' & [= <- _])]; done.
Qed.

Lemma hasChar_app (c x : Ascii.ascii) (a b : string) :
  hasChar c (a ++ String x b)%string
  = hasChar c a || bool_decide (c = x) || hasChar c b.
Proof.
  induction a as [|y a IH]; [done|].
  rewrite append_String. simpl. rewrite IH. by rewrite !orb_assoc.
Qed.

(** ** The authentication middleware *)

(** The next handler is called only after a successful authentication, and
    then with the authenticated id in the context of the request, the rest
    of the request as it came, and the headers of the scheme: the name of
    the account for a key pair; the email, and the token when it was
    refreshed, for a bearer token. *)
Theorem authMiddleware_next_has_identity (sasUC : ServiceAccountsAuth)
  (r r' : Request) (st st' : Store) (w : ResponseWriter) :
  authMiddleware sasUC r st = (CalledNext w r', st') →
  ∃ id,
    r' = withServiceAccountID id r
    ∧ ((∃ keyID keySecret name,
          uc_AuthenticateKeyPair sasUC keyID keySecret st
          = (Ok (AccessKeyPairAuth.mk id name), st')
          ∧ w = Header_Set "x-service-account-name" name newWriter)
       ∨ (∃ accessToken a,
            uc_AuthenticateAccessToken sasUC accessToken st = (Ok a, st')
            ∧ AccessTokenAuth.ServiceAccountID a = id
            ∧ w = bearerWriter accessToken a)).
Proof.
  unfold authMiddleware.
  destruct (bool_decide (Authorization r = "")
            || negb (bool_decide
                       (length (strings_Split (Authorization r) " ") = 2)));
    [done|].
  destruct (bool_decide (default "" (strings_Split (Authorization r) " " !! 0)
                         = "KeyPair")).
  - destruct (strings_Split _ ":" !! 0) as [keyID|]; [|done].
    destruct (strings_Split _ ":" !! 1) as [keySecret|]; [|done].
    destruct (uc_AuthenticateKeyPair sasUC keyID keySecret st)
      as [[[id name]|e|msg] st1] eqn:Hauth; [|done..].
    intros [= <- <- <-]. exists id. split; [done|]. left.
    by exists keyID, keySecret, name.
  - destruct (bool_decide (default "" (strings_Split (Authorization r) " " !! 0)
                           = "Bearer")); [|done].
    destruct (uc_AuthenticateAccessToken sasUC _ st)
      as [[a|e|msg] st1] eqn:Hauth; [|by destruct e|done].
    intros [= <- <- <-]. exists (AccessTokenAuth.ServiceAccountID a).
    split; [done|]. right. eexists _, a. by split_and!.
Qed.

(** A bearer header.  For every token without a space, the header
    [Bearer <token>] hands exactly that token to [AuthenticateAccessToken];
    on success the next handler is called, an [EntityNotFoundError] is
    answered with 401 and any other error with 500. *)
Theorem authMiddleware_bearer (sasUC : ServiceAccountsAuth) (r : Request)
  (st : Store) (token : string) :
  Authorization r = ("Bearer " ++ token)%string →
  hasChar " "%char token = false →
  authMiddleware sasUC r st
  = match uc_AuthenticateAccessToken sasUC token st with
    | (Ok a, st') =>
        (CalledNext (bearerWriter token a)
           (withServiceAccountID (AccessTokenAuth.ServiceAccountID a) r), st')
    | (Err EntityNotFoundError, st') =>
        (Responded (WriteHeader StatusUnauthorized newWriter), st')
    | (Err _, st') =>
        (Responded (WriteHeader StatusInternalServerError newWriter), st')
    | (Panic msg, st') => (Crashed msg, st')
    end.
Proof.
  intros Hheader Hno. unfold authMiddleware. rewrite Hheader.
  change ("Bearer " ++ token)%string with ("Bearer" ++ String " "%char token)%string.
  rewrite (Split_app " "%char "Bearer" token) by done.
  rewrite (Split_whole " "%char token) by done.
  cbn -[uc_AuthenticateAccessToken bearerWriter].
  destruct (uc_AuthenticateAccessToken sasUC token st) as [[a|e|msg] st1];
    [done | by destruct e | done].
Qed.

(** A key-pair header.  For every key id without a space or a colon, the
    header [KeyPair <id>:<rest>] hands the id, and what stands in [rest]
    before its first colon, to [AuthenticateKeyPair]: on success the next
    handler is called and every error is answered with 500.  A credential
    without a colon makes the handler panic. *)
Theorem authMiddleware_key_pair (sasUC : ServiceAccountsAuth) (r : Request)
  (st : Store) :
  (∀ keyID rest,
     Authorization r = ("KeyPair " ++ keyID ++ String ":"%char rest)%string →
     hasChar " "%char keyID = false → hasChar ":"%char keyID = false →
     hasChar " "%char rest = false →
     authMiddleware sasUC r st
     = match uc_AuthenticateKeyPair sasUC keyID (upTo ":"%char rest) st with
       | (Ok a, st') =>
           (CalledNext
              (Header_Set "x-service-account-name" (AccessKeyPairAuth.Name a)
                          newWriter)
              (withServiceAccountID (AccessKeyPairAuth.ServiceAccountID a) r),
            st')
       | (Err _, st') =>
           (Responded (WriteHeader StatusInternalServerError newWriter), st')
       | (Panic msg, st') => (Crashed msg, st')
       end)
  ∧ (∀ credential,
       Authorization r = ("KeyPair " ++ credential)%string →
       hasChar " "%char credential = false → hasChar ":"%char credential = false →
       authMiddleware sasUC r st = (Crashed "index out of range", st)).
Proof.
  split.
  - intros keyID rest Hheader Hsp Hcol Hrest. unfold authMiddleware.
    rewrite Hheader.
    change ("KeyPair " ++ keyID ++ String ":"%char rest)%string
      with ("KeyPair" ++ String " "%char (keyID ++ String ":"%char rest))%string.
    rewrite (Split_app " "%char "KeyPair") by done.
    rewrite (Split_whole " "%char)
      by (rewrite hasChar_app, Hsp, Hrest; done).
    cbn -[uc_AuthenticateKeyPair strings_Split].
    rewrite (Split_app ":"%char keyID rest) by done.
    destruct (Split_head ":"%char rest) as [pieces ->].
    cbn -[uc_AuthenticateKeyPair].
    by destruct (uc_AuthenticateKeyPair sasUC keyID (upTo ":"%char rest) st)
      as [[a|e|msg] st1].
  - intros credential Hheader Hsp Hcol. unfold authMiddleware.
    rewrite Hheader.
    change ("KeyPair " ++ credential)%string
      with ("KeyPair" ++ String " "%char credential)%string.
    rewrite (Split_app " "%char "KeyPair") by done.
    rewrite (Split_whole " "%char credential) by done.
    cbn -[strings_Split].
    by rewrite (Split_whole ":"%char credential).
Qed.

(** ** The embeddable middleware, on every request *)

Lemma accessTokenFromHeader_upTo (r : Request) :
  william.accessTokenFromHeader r = upTo " "%char (Authorization r).
Proof.
  unfold william.accessTokenFromHeader.
  by destruct (Split_head " "%char (Authorization r)) as [pieces ->].
Qed.

(** What [accessTokenFromHeader] returns is the header up to its first
    space: it holds no space, it is the whole header when the header has
    none, and it is empty exactly when the header is empty or starts with
    a space (the [len(parts) < 1] branch is never taken). *)
Theorem accessTokenFromHeader_first_field (r : Request) :
  william.accessTokenFromHeader r = upTo " "%char (Authorization r)
  ∧ hasChar " "%char (william.accessTokenFromHeader r) = false
  ∧ (hasChar " "%char (Authorization r) = false →
     william.accessTokenFromHeader r = Authorization r)
  ∧ (william.accessTokenFromHeader r = ""
     ↔ Authorization r = "" ∨ ∃ rest, Authorization r = String " "%char rest).
Proof.
  rewrite accessTokenFromHeader_upTo. split_and!.
  - done.
  - apply upTo_hasChar.
  - apply upTo_whole.
  - apply upTo_empty.
Qed.

(** An enabled middleware asks for a first field: a request whose
    [Authorization] header is missing, or starts with a space, is answered
    with 401, nothing is sent to Will.IAM and the next handler is not
    called. *)
Theorem ServeHTTP_requires_first_field (net : william.Net)
  (m : william.Middleware) (w : ResponseWriter) (r : Request) :
  william.enabled m = true →
  (Authorization r = "" ∨ ∃ rest, Authorization r = String " "%char rest) →
  william.ServeHTTP net m w r
  = (Responded (WriteHeader StatusUnauthorized w), []).
Proof.
  intros Hon Hnone. apply upTo_empty in Hnone.
  rewrite <- accessTokenFromHeader_upTo in Hnone.
  unfold william.ServeHTTP. by rewrite Hon, Hnone.
Qed.

(** Whatever is sent to Will.IAM is one [GET] to
    [<iamURL>/permissions/has?permission=<escaped permission>], by an
    enabled middleware, and its [Authorization] header is the first field
    of the caller's header: it never holds a space. *)
Theorem ServeHTTP_outbound (net : william.Net) (m : william.Middleware)
  (w : ResponseWriter) (r : Request) (req : william.OutRequest) :
  req ∈ snd (william.ServeHTTP net m w r) →
  snd (william.ServeHTTP net m w r) = [req]
  ∧ william.enabled m = true
  ∧ william.Method req = "GET"
  ∧ william.URL req
    = (william.iamURL m ++ "/permissions/has?permission="
       ++ william.QueryEscape net (william.build (william.perm m) r))%string
  ∧ william.outAuthorization req = upTo " "%char (Authorization r)
  ∧ hasChar " "%char (william.outAuthorization req) = false.
Proof.
  pose proof (upTo_hasChar " "%char (Authorization r)) as Hno.
  rewrite <- accessTokenFromHeader_upTo in Hno |- *.
  unfold william.ServeHTTP, william.getAuthStatus.
  destruct (william.enabled m); simpl; [|by intros ?%elem_of_nil].
  destruct (bool_decide (william.accessTokenFromHeader r = ""));
    [by intros ?%elem_of_nil|].
  destruct (william.acceptsURL net _); simpl; [|by intros ?%elem_of_nil].
  assert (Hone : ∀ sent : list william.OutRequest,
            sent = [william.mkOutRequest "GET"
                      (william.iamURL m ++ "/permissions/has?permission="
                       ++ william.QueryEscape net
                            (william.build (william.perm m) r))%string
                      (william.accessTokenFromHeader r)] →
            req ∈ sent →
            sent = [req] ∧ true = true ∧ william.Method req = "GET"
            ∧ william.URL req
              = (william.iamURL m ++ "/permissions/has?permission="
                 ++ william.QueryEscape net
                      (william.build (william.perm m) r))%string
            ∧ william.outAuthorization req = william.accessTokenFromHeader r
            ∧ hasChar " "%char (william.outAuthorization req) = false).
  { intros sent -> Hin. apply list_elem_of_singleton in Hin as ->.
    by split_and!. }
  destruct (william.Do net _) as [res|e|msg]; simpl; [|by apply Hone..].
  destruct (negb (bool_decide (william.StatusCode res = StatusOK)));
    simpl; by apply Hone.
Qed.

(** The next handler is called in two cases only: the middleware is
    disabled, or Will.IAM answered the request with status 200; it then
    gets the request as it came.  A request that cannot be built or sent
    is answered with 500. *)
Theorem ServeHTTP_next_only_when_granted (net : william.Net)
  (m : william.Middleware) (w : ResponseWriter) (r : Request) :
  (∀ w' r',
     fst (william.ServeHTTP net m w r) = CalledNext w' r' →
     r' = r
     ∧ ((william.enabled m = false ∧ w' = w)
        ∨ ∃ req res,
            snd (william.ServeHTTP net m w r) = [req]
            ∧ william.Do net req = Ok res
            ∧ william.StatusCode res = StatusOK))
  ∧ (william.enabled m = true →
     william.accessTokenFromHeader r ≠ "" →
     (william.acceptsURL net
        (william.iamURL m ++ "/permissions/has?permission="
         ++ william.QueryEscape net (william.build (william.perm m) r))%string
      = false
      ∨ ∃ e, william.Do net
               (william.mkOutRequest "GET"
                  (william.iamURL m ++ "/permissions/has?permission="
                   ++ william.QueryEscape net
                        (william.build (william.perm m) r))%string
                  (william.accessTokenFromHeader r))
             = Err e) →
     fst (william.ServeHTTP net m w r)
     = Responded (WriteHeader StatusInternalServerError w)).
Proof.
  split.
  - intros w' r'. unfold william.ServeHTTP, william.getAuthStatus.
    destruct (william.enabled m); simpl.
    2:{ intros [= <- <-]. split; [done|]. by left. }
    destruct (bool_decide (william.accessTokenFromHeader r = "")); [done|].
    destruct (william.acceptsURL net _); simpl; [|done].
    destruct (william.Do net _) as [res|e|msg] eqn:Hdo; simpl; [|done..].
    destruct (bool_decide (william.StatusCode res = StatusOK)) eqn:Hcode;
      simpl; [|done].
    apply bool_decide_eq_true in Hcode.
    intros [= _ <-]. split; [done|]. right. by eexists _, res.
  - intros Hon Htoken Hfail.
    unfold william.ServeHTTP, william.getAuthStatus.
    rewrite Hon, bool_decide_false by done. simpl.
    destruct Hfail as [->|[e ->]]; [done|].
    by destruct (william.acceptsURL net _).
Qed.

(** [NewMiddleware] reads the settings of the application and falls back
    on the defaults of [configure] for the ones it did not make: the URL
    [http://localhost:4040], the service [service], and a disabled
    middleware; the ownership level, the action and the resource are the
    ones given. *)
Theorem NewMiddleware_settings (config : william.Viper)
  (ownershipLevel action : string) (resource : Request → string) :
  let m := william.NewMiddleware config ownershipLevel action resource in
  william.OwnershipLevel (william.perm m) = ownershipLevel
  ∧ william.Action (william.perm m) = action
  ∧ william.Resource (william.perm m) = resource
  ∧ (∀ url, william.overrides config !! "william.url" = Some (william.VString url) →
            william.iamURL m = url)
  ∧ (william.overrides config !! "william.url" = None →
     william.iamURL m = "http://localhost:4040")
  ∧ (∀ service,
       william.overrides config !! "william.permission.service"
       = Some (william.VString service) →
       william.Service (william.perm m) = service)
  ∧ (william.overrides config !! "william.permission.service" = None →
     william.Service (william.perm m) = "service")
  ∧ (∀ b, william.overrides config !! "william.enabled" = Some (william.VBool b) →
          william.enabled m = b).
Proof.
  unfold william.NewMiddleware, william.configure, william.GetBool,
    william.GetString, william.Get, william.SetDefault. simpl.
  split_and!; try done.
  - by intros url ->.
  - intros ->. rewrite !lookup_insert_ne by done. by rewrite lookup_insert_eq.
  - by intros service ->.
  - intros ->. by rewrite lookup_insert_eq.
  - by intros b ->.
Qed.

(** ** Authorization, validation and the two writing handlers *)

(** The authorization step succeeds exactly when the acting account owns
    every permission of every role to bind and every inline permission,
    the permission strings being well formed; what it returns is the
    request with the parsed permissions, each with the alias the request
    gives to its string. *)
Theorem process_accepts_iff (sas : serviceAccounts) (r : Request)
  (st : Store) (sawn sawn' : ServiceAccountWithNested)
  (held : list Permission.t) (rolesPs : list (list Permission.t)) :
  decodedBody r = Ok sawn →
  Permissions_ForServiceAccount (repo sas) (actor r) st = Ok held →
  Forall2 (fun roleID rps => Permissions_ForRole (repo sas) roleID st = Ok rps)
          (RolesIDs sawn) rolesPs →
  processServiceAccountWithNestedFromReq r sas st = (Ok sawn', st)
  ↔ ownsAll held (concat rolesPs)
    ∧ ∃ ps, BuildPermissions (PermissionsStrings sawn) = Ok ps
            ∧ ownsAll held ps
            ∧ sawn' = sawn_setPermissions
                        (applyAliases (PermissionsAliases sawn)
                           (PermissionsStrings sawn) ps) sawn.
Proof.
  intros Hbody Hheld Hroles.
  destruct (ownsAll_dec held (concat rolesPs)) as [Hown|Hown].
  2:{ rewrite (process_rejects_roles sas r st sawn held rolesPs) by done.
      split; [done | by intros [? _]]. }
  unfold processServiceAccountWithNestedFromReq.
  unfold bind at 1. unfold read at 1. rewrite Hbody.
  unfold bind at 1. fold (actor r).
  rewrite (HasAllOwnerRolesPermissions_ok sas r st sawn held rolesPs)
    by done.
  pose proof Hown as Hall. apply allHas_owner in Hall. rewrite Hall. simpl.
  unfold bind at 1. unfold read at 1.
  destruct (BuildPermissions (PermissionsStrings sawn)) as [ps|e|msg] eqn:Hps.
  2,3: split; [done | by intros (_ & ps & ? & _)].
  unfold bind at 1.
  rewrite (HasAllOwnerPermissions_ok _ _ _ _ Hheld). simpl.
  rewrite owner_checks_applyAliases.
  destruct (ownsAll_dec held ps) as [Hps_own|Hps_own].
  - pose proof Hps_own as Hall'. apply allHas_owner in Hall'.
    rewrite Hall'. simpl. unfold ret. split.
    + intros [= <-]. split; [done|]. by exists ps.
    + intros (_ & ps' & [= <-] & _ & ->). done.
  - rewrite not_ownsAll_allHas by done. simpl. split; [done|].
    by intros (_ & ps' & [= <-] & ? & _).
Qed.

(** A request that binds no role and grants no permission passes the
    authorization step whoever the acting account is, once its permissions
    could be read. *)
Theorem process_accepts_empty_grant (sas : serviceAccounts) (r : Request)
  (st : Store) (sawn : ServiceAccountWithNested) (held : list Permission.t) :
  decodedBody r = Ok sawn →
  Permissions_ForServiceAccount (repo sas) (actor r) st = Ok held →
  RolesIDs sawn = [] →
  PermissionsStrings sawn = [] →
  processServiceAccountWithNestedFromReq r sas st
  = (Ok (sawn_setPermissions [] sawn), st).
Proof.
  intros Hbody Hheld Hroles Hstrs.
  unfold processServiceAccountWithNestedFromReq.
  unfold bind at 1. unfold read at 1. rewrite Hbody.
  unfold bind at 1. fold (actor r).
  rewrite (HasAllOwnerRolesPermissions_ok sas r st sawn held [])
    by (try done; rewrite Hroles; constructor).
  simpl. rewrite Hstrs. unfold bind at 1. unfold read at 1. simpl.
  unfold bind at 1.
  by rewrite (HasAllOwnerPermissions_ok _ _ _ _ Hheld).
Qed.

Lemma Validate_valid_iff (sawn : ServiceAccountWithNested) :
  Validation_Valid (Validate sawn) = true
  ↔ Name sawn ≠ ""
    ∧ AuthenticationType_Valid (AuthenticationType sawn) = true
    ∧ (AuthenticationType sawn = AuthenticationTypes.OAuth2 → Email sawn ≠ "").
Proof.
  unfold Validate.
  destruct (bool_decide (Name sawn = "")) eqn:Hname;
    [apply bool_decide_eq_true in Hname | apply bool_decide_eq_false in Hname].
  { simpl. split; [done | by intros [? _]]. }
  destruct (AuthenticationType_Valid (AuthenticationType sawn)) eqn:Hvalid;
    simpl; [|split; [done | by intros (_ & ? & _)]].
  destruct (bool_decide (AuthenticationType sawn = AuthenticationTypes.OAuth2))
    eqn:Htype;
    [apply bool_decide_eq_true in Htype | apply bool_decide_eq_false in Htype];
    simpl; [|done].
  destruct (bool_decide (Email sawn = "")) eqn:Hemail;
    [apply bool_decide_eq_true in Hemail | apply bool_decide_eq_false in Hemail];
    simpl.
  - split; [done|]. intros (_ & _ & Hne). by destruct (Hne Htype).
  - done.
Qed.

(** A request that passes the authorization step with an empty name, an
    authentication type that is neither value, or the OAuth2 type and no
    email, is answered with 422 by both handlers and nothing is written:
    [CreateWithNested] and [UpdateWithNested] are not reached. *)
Theorem invalid_account_is_422 (sas : serviceAccounts) (rnd : Entropy)
  (r : Request) (st : Store) (sawn : ServiceAccountWithNested) :
  processServiceAccountWithNestedFromReq r sas st = (Ok sawn, st) →
  (Name sawn = ""
   ∨ AuthenticationType_Valid (AuthenticationType sawn) = false
   ∨ (AuthenticationType sawn = AuthenticationTypes.OAuth2 ∧ Email sawn = "")) →
  serviceAccountsCreateHandler sas rnd r st
  = (Responded (WriteHeader StatusUnprocessableEntity newWriter), st)
  ∧ serviceAccountsUpdateHandler sas r st
    = (Responded (WriteHeader StatusUnprocessableEntity newWriter), st).
Proof.
  intros Hprocess Hbad.
  assert (Hinvalid : Validation_Valid (Validate sawn) = false).
  { destruct (Validation_Valid (Validate sawn)) eqn:Hvalid; [|done].
    apply Validate_valid_iff in Hvalid as (Hname & Htype & Hemail).
    destruct Hbad as [?|[?|[? ?]]]; [done | congruence | by destruct Hemail]. }
  unfold serviceAccountsCreateHandler, serviceAccountsUpdateHandler.
  by rewrite Hprocess, Hinvalid.
Qed.

(** A body that cannot be read or decoded, and a malformed permission
    string in a request whose roles the acting account owns, are both
    answered with 500 by the two handlers, and nothing is written. *)
Theorem undecodable_request_is_500 (sas : serviceAccounts) (rnd : Entropy)
  (r : Request) (st : Store) :
  (∀ e, decodedBody r = Err e →
        e ≠ UserDoesntHaveAllPermissionsError →
        serviceAccountsCreateHandler sas rnd r st
        = (Responded (WriteHeader StatusInternalServerError newWriter), st)
        ∧ serviceAccountsUpdateHandler sas r st
          = (Responded (WriteHeader StatusInternalServerError newWriter), st))
  ∧ (∀ sawn held rolesPs str,
       decodedBody r = Ok sawn →
       Permissions_ForServiceAccount (repo sas) (actor r) st = Ok held →
       Forall2
         (fun roleID rps => Permissions_ForRole (repo sas) roleID st = Ok rps)
         (RolesIDs sawn) rolesPs →
       ownsAll held (concat rolesPs) →
       BuildPermissions (PermissionsStrings sawn)
       = Err (MalformedPermissionError str) →
       serviceAccountsCreateHandler sas rnd r st
       = (Responded (WriteHeader StatusInternalServerError newWriter), st)
       ∧ serviceAccountsUpdateHandler sas r st
         = (Responded (WriteHeader StatusInternalServerError newWriter), st)).
Proof.
  split.
  - intros e Hbody Hne.
    assert (Hprocess : processServiceAccountWithNestedFromReq r sas st
                       = (Err e, st)).
    { unfold processServiceAccountWithNestedFromReq.
      unfold bind at 1. unfold read at 1. by rewrite Hbody. }
    unfold serviceAccountsCreateHandler, serviceAccountsUpdateHandler.
    rewrite Hprocess. by destruct e.
  - intros sawn held rolesPs str Hbody Hheld Hroles Hown Hps.
    assert (Hprocess : processServiceAccountWithNestedFromReq r sas st
                       = (Err (MalformedPermissionError str), st)).
    { unfold processServiceAccountWithNestedFromReq.
      unfold bind at 1. unfold read at 1. rewrite Hbody.
      unfold bind at 1. fold (actor r).
      rewrite (HasAllOwnerRolesPermissions_ok sas r st sawn held rolesPs)
        by done.
      apply allHas_owner in Hown. rewrite Hown. simpl.
      unfold bind at 1. unfold read at 1. by rewrite Hps. }
    unfold serviceAccountsCreateHandler, serviceAccountsUpdateHandler.
    by rewrite Hprocess.
Qed.

(** The two handlers write only when they succeed: unless the create
    handler answers 201, and the update handler 200, the store is the one
    they were given. *)
Theorem handlers_write_only_on_success (sas : serviceAccounts)
  (rnd : Entropy) (r : Request) (st : Store) :
  (fst (serviceAccountsCreateHandler sas rnd r st)
   ≠ Responded (WriteHeader StatusCreated newWriter) →
   snd (serviceAccountsCreateHandler sas rnd r st) = st)
  ∧ (fst (serviceAccountsUpdateHandler sas r st)
     ≠ Responded (WriteHeader StatusOK newWriter) →
     snd (serviceAccountsUpdateHandler sas r st) = st).
Proof.
  pose proof (readOnly_process r sas st) as Hro.
  unfold serviceAccountsCreateHandler, serviceAccountsUpdateHandler.
  destruct (processServiceAccountWithNestedFromReq r sas st)
    as [[sawn|e|msg] st1]; simpl in Hro; subst st1; [|done..].
  destruct (negb (Validation_Valid (Validate sawn))); [done|].
  split.
  - destruct (CreateWithNested sas rnd (sawn_setID (routeID r) sawn) st)
      as [o st1] eqn:Hcreate.
    destruct o as [sawn'|e|msg]; simpl; [done| |];
      intros _; by eapply WithPGTx_failure.
  - destruct (UpdateWithNested sas (sawn_setID (routeID r) sawn) st)
      as [o st1] eqn:Hupdate.
    destruct o as [sawn'|e|msg]; simpl; [done| |];
      intros _; by eapply WithPGTx_failure.
Qed.

(** ** Creating accounts *)

(** With an authentication type that is neither value, [CreateWithNested]
    panics on the nil account before any repository is called, and the
    store is left as it was. *)
Theorem CreateWithNested_invalid_type_panics (sas : serviceAccounts)
  (rnd : Entropy) (sawn : ServiceAccountWithNested) (st : Store) :
  AuthenticationType_Valid (AuthenticationType sawn) = false →
  CreateWithNested sas rnd sawn st
  = (Panic "invalid memory address or nil pointer dereference", st).
Proof.
  unfold AuthenticationType_Valid. intros Hinvalid.
  apply orb_false_iff in Hinvalid as [Hoauth Hkey].
  unfold CreateWithNested, WithPGTx, createWithNestedFn.
  by rewrite Hoauth, Hkey.
Qed.

Lemma writeRet_Ok {A} (f : Store → outcome (A * Store)) (st st' : Store)
  (a : A) :
  writeRet f st = (Ok a, st') → f st = Ok (a, st').
Proof.
  unfold writeRet. destruct (f st) as [[a1 st1]|e|msg]; [|done..].
  by intros [= -> ->].
Qed.

Lemma createPermissions_result (storage : All) (base : string)
  (ps : list Permission.t) :
  ∀ (st st' : Store) (ps' : list Permission.t),
    createPermissions storage base ps st = (Ok ps', st') →
    ps' = map (Permission.setRoleID base) ps.
Proof.
  induction ps as [|p ps IH]; intros st st' ps' Hrun; simpl in *.
  - by apply ret_Ok in Hrun as [<- _].
  - apply bind_Ok in Hrun as (u1 & st1 & _ & Hrest).
    apply bind_Ok in Hrest as (rest' & st2 & Hrest & Hret).
    apply ret_Ok in Hret as [<- _]. by rewrite (IH _ _ _ Hrest).
Qed.

Lemma bind_loop (storage : All) (saID : string) (rolesIDs : list string) :
  BindingsContract storage →
  ∀ (st st' : Store) (u : unit),
    forEach (fun roleID =>
               write (Roles_Bind storage (RoleBinding.mk saID roleID)))
            rolesIDs st
    = (Ok u, st') →
    role_bindings st'
    = role_bindings st ++ map (RoleBinding.mk saID) rolesIDs.
Proof.
  intros contract.
  induction rolesIDs as [|roleID rolesIDs IH]; intros st st' u Hrun;
    simpl in *.
  - apply ret_Ok in Hrun as [_ ->]. by rewrite app_nil_r.
  - apply bind_Ok in Hrun as (u1 & st1 & Hstep & Hrest).
    apply IH in Hrest. rewrite Hrest.
    apply write_Ok, (bind_appends _ contract) in Hstep.
    rewrite Hstep. by rewrite <- app_assoc.
Qed.

Section Creating.
Variable storage : All.
Hypothesis bindings : BindingsContract storage.
Hypothesis creating : CreateContract storage.

(** What a successful [createServiceAccount] has done. *)
Lemma createServiceAccount_result (rnd : Entropy) (sa sa' : ServiceAccount.t)
  (st st' : Store) :
  createServiceAccount rnd sa storage st = (Ok sa', st') →
  ∃ r st1,
    Roles_Create storage
      (Role.mk "" ("service-account:" ++ newUUID rnd)%string true) st
    = Ok (r, st1)
    ∧ sa' = ServiceAccount.setBaseRoleID (Role.ID r)
              (ServiceAccount.setID (newUUID rnd) sa)
    ∧ role_bindings st'
      = role_bindings st ++ [RoleBinding.mk (newUUID rnd) (Role.ID r)].
Proof.
  intros Hrun. unfold createServiceAccount in Hrun. simpl in Hrun.
  apply bind_Ok in Hrun as (r & st1 & Hrole & Hrun).
  apply writeRet_Ok in Hrole.
  apply bind_Ok in Hrun as (u1 & st2 & Haccount & Hrun).
  apply write_Ok in Haccount.
  apply bind_Ok in Hrun as (u2 & st3 & Hbind & Hret).
  apply write_Ok in Hbind.
  apply ret_Ok in Hret as [<- ->].
  exists r, st1. split_and!; [done..|].
  rewrite (bind_appends _ bindings _ _ _ Hbind).
  rewrite (account_create_keeps_bindings _ creating _ _ _ Haccount).
  by rewrite (role_create_keeps_bindings _ creating _ _ _ _ Hrole).
Qed.
End Creating.

(** [Create] gives the account a fresh id and a base role of its own, and
    binds the two: with a storage collaborator that meets its contracts, a
    successful [Create] returns the account it was given with the drawn
    UUID as id and the id of the role it created (named
    [service-account:<id>], flagged base) as base role, and has added the
    binding of the account to that role and no other. *)
Theorem Create_binds_base_role (storage : All)
  (provider : string → outcome AuthResult.t) (rnd : Entropy)
  (sa sa' : ServiceAccount.t) (st st' : Store) :
  BindingsContract storage →
  CreateContract storage →
  Create {| repo := storage; oauth2Provider := provider |} rnd sa st
  = (Ok sa', st') →
  (∃ r st1,
     Roles_Create storage
       (Role.mk "" ("service-account:" ++ newUUID rnd)%string true) st
     = Ok (r, st1)
     ∧ ServiceAccount.BaseRoleID sa' = Role.ID r)
  ∧ sa' = ServiceAccount.setBaseRoleID (ServiceAccount.BaseRoleID sa')
            (ServiceAccount.setID (newUUID rnd) sa)
  ∧ role_bindings st'
    = role_bindings st
      ++ [RoleBinding.mk (ServiceAccount.ID sa') (ServiceAccount.BaseRoleID sa')]
  ∧ bound st' (ServiceAccount.ID sa') (ServiceAccount.BaseRoleID sa') = true.
Proof.
  intros bindings creating Hcreate.
  apply WithPGTx_success in Hcreate.
  apply (createServiceAccount_result storage bindings creating) in Hcreate
    as (r & st1 & Hrole & -> & Hrows).
  split_and!.
  - by exists r, st1.
  - done.
  - done.
  - apply bound_elem_of. rewrite Hrows. apply elem_of_app. right.
    by apply list_elem_of_singleton.
Qed.

(** [CreateWithNested] on success: the id of the request is replaced by
    the drawn UUID, whatever the request carried; every inline permission
    comes back attached to the base role of the new account; and the
    bindings added are the one to the base role, then one per requested
    role, in order. *)
Theorem CreateWithNested_result (storage : All)
  (provider : string → outcome AuthResult.t) (rnd : Entropy)
  (sawn sawn' : ServiceAccountWithNested) (st st' : Store) :
  BindingsContract storage →
  CreateContract storage →
  CreateWithNested {| repo := storage; oauth2Provider := provider |} rnd sawn st
  = (Ok sawn', st') →
  ∃ base,
    sawn' = sawn_setPermissions
              (map (Permission.setRoleID base) (Permissions sawn))
              (sawn_setID (newUUID rnd) sawn)
    ∧ role_bindings st'
      = role_bindings st
        ++ RoleBinding.mk (newUUID rnd) base
           :: map (RoleBinding.mk (newUUID rnd)) (RolesIDs sawn)
    ∧ bound st' (ID sawn') base = true.
Proof.
  intros bindings creating Hcreate.
  apply WithPGTx_success in Hcreate. simpl in Hcreate.
  unfold createWithNestedFn in Hcreate.
  apply bind_Ok in Hcreate as (osa & st1 & Hsa & Hrest).
  assert (Hcreated : ∃ sa0 sa,
            osa = Some sa
            ∧ createServiceAccount rnd sa0 storage st = (Ok sa, st1)).
  { destruct (bool_decide (AuthenticationType sawn = AuthenticationTypes.OAuth2)).
    - apply bind_Ok in Hsa as (sa & st2 & Hsa & Hret).
      apply ret_Ok in Hret as [<- ->]. by eexists _, sa.
    - destruct (bool_decide
                  (AuthenticationType sawn = AuthenticationTypes.KeyPair)).
      + apply bind_Ok in Hsa as (sa & st2 & Hsa & Hret).
        apply ret_Ok in Hret as [<- ->]. by eexists _, sa.
      + apply ret_Ok in Hsa as [<- _]. done. }
  destruct Hcreated as (sa0 & sa & -> & Hsa0).
  apply (createServiceAccount_result storage bindings creating) in Hsa0
    as (r & st0 & _ & -> & Hrows1).
  simpl in Hrest.
  apply bind_Ok in Hrest as (u & st2 & Hloop & Hrest).
  apply (bind_loop storage _ _ bindings) in Hloop.
  apply bind_Ok in Hrest as (ps & st3 & Hps & Hret).
  apply ret_Ok in Hret as [<- ->].
  pose proof (createPermissions_result _ _ _ _ _ _ Hps) as ->.
  apply (createPermissions_bindings storage bindings) in Hps.
  exists (Role.ID r).
  assert (Hrows : role_bindings st3
                  = role_bindings st
                    ++ RoleBinding.mk (newUUID rnd) (Role.ID r)
                       :: map (RoleBinding.mk (newUUID rnd)) (RolesIDs sawn)).
  { rewrite Hps, Hloop, Hrows1. by rewrite <- app_assoc. }
  split_and!; [done..|].
  apply bound_elem_of. rewrite Hrows. apply elem_of_app. right. by left.
Qed.

(** ** Logging in again *)

(** A login with an account for the email of the token creates nothing:
    it returns the id of that account with the token and the email of the
    provider, and it writes only when the provider has a picture that is
    not the stored one, one [Update] of that account with the new picture
    and nothing else changed. *)
Theorem AuthenticateAccessToken_known_account (sas : serviceAccounts)
  (rnd : Entropy) (accessToken : string) (authResult : AuthResult.t)
  (sa : ServiceAccount.t) (st : Store) :
  oauth2Provider sas accessToken = Ok authResult →
  ServiceAccounts_ForEmail (repo sas) (AuthResult.Email authResult) st = Ok sa →
  let answer :=
    AccessTokenAuth.mk (ServiceAccount.ID sa)
      (AuthResult.AccessToken authResult) (AuthResult.Email authResult) in
  ((AuthResult.Picture authResult = ""
    ∨ AuthResult.Picture authResult = ServiceAccount.Picture sa) →
   AuthenticateAccessToken sas rnd accessToken st = (Ok answer, st))
  ∧ (AuthResult.Picture authResult ≠ "" →
     AuthResult.Picture authResult ≠ ServiceAccount.Picture sa →
     ∀ st',
       ServiceAccounts_Update (repo sas)
         (ServiceAccount.setPicture (AuthResult.Picture authResult) sa) st
       = Ok st' →
       AuthenticateAccessToken sas rnd accessToken st = (Ok answer, st'))
  ∧ (AuthResult.Picture authResult ≠ "" →
     AuthResult.Picture authResult ≠ ServiceAccount.Picture sa →
     ∀ e,
       ServiceAccounts_Update (repo sas)
         (ServiceAccount.setPicture (AuthResult.Picture authResult) sa) st
       = Err e →
       AuthenticateAccessToken sas rnd accessToken st = (Err e, st)).
Proof.
  intros Hauth Hknown answer.
  assert (Hrun :
    AuthenticateAccessToken sas rnd accessToken st
    = if negb (bool_decide (AuthResult.Picture authResult = ""))
         && negb (bool_decide (AuthResult.Picture authResult
                               = ServiceAccount.Picture sa))
      then match ServiceAccounts_Update (repo sas)
                   (ServiceAccount.setPicture (AuthResult.Picture authResult) sa)
                   st with
           | Ok st' => (Ok answer, st')
           | Err e => (Err e, st)
           | Panic msg => (Panic msg, st)
           end
      else (Ok answer, st)).
  { unfold AuthenticateAccessToken. unfold_go. rewrite Hauth, Hknown.
    destruct (negb _ && negb _); [|done].
    by destruct (ServiceAccounts_Update _ _ _). }
  rewrite Hrun. split_and!.
  - intros Hkeep. repeat case_bool_decide; simpl; try done.
    by destruct Hkeep.
  - intros Hne Hnew st' ->. by repeat case_bool_decide.
  - intros Hne Hnew e ->. by repeat case_bool_decide.
Qed.

(** ** Reading an account back *)

Lemma nestedPermissions_strings (pSl : list Permission.t)
  (m : gmap string string) :
  fst (nestedPermissions pSl m) = map Permission.String pSl.
Proof.
  revert m. induction pSl as [|p pSl IH]; intros m; simpl; [done|].
  specialize (IH (if negb (bool_decide (Permission.Alias p = ""))
                  then <[Permission.String p := Permission.Alias p]> m else m)).
  destruct (nestedPermissions pSl _) as [strs aliases]. simpl in *.
  by rewrite IH.
Qed.

Lemma nestedPermissions_cons (p : Permission.t) (pSl : list Permission.t)
  (m : gmap string string) :
  snd (nestedPermissions (p :: pSl) m)
  = snd (nestedPermissions pSl
           (if negb (bool_decide (Permission.Alias p = ""))
            then <[Permission.String p := Permission.Alias p]> m else m)).
Proof. simpl. by destruct (nestedPermissions pSl _). Qed.

(** A string that no permission of the list has keeps its entry. *)
Lemma nestedPermissions_other (pSl : list Permission.t) (s : string) :
  ∀ m : gmap string string,
    s ∉ map Permission.String pSl →
    snd (nestedPermissions pSl m) !! s = m !! s.
Proof.
  induction pSl as [|p pSl IH]; intros m Hnot; [done|].
  rewrite nestedPermissions_cons.
  apply not_elem_of_cons in Hnot as [Hne Hnot].
  rewrite IH by done.
  destruct (negb _); [|done]. by rewrite lookup_insert_ne.
Qed.

(** Every alias of the map is the non-empty alias of a permission of the
    list with that string, or was in the map before. *)
Lemma nestedPermissions_sound (pSl : list Permission.t) (s a : string) :
  ∀ m : gmap string string,
    snd (nestedPermissions pSl m) !! s = Some a →
    m !! s = Some a
    ∨ (a ≠ "" ∧ ∃ p, p ∈ pSl ∧ Permission.String p = s
                     ∧ Permission.Alias p = a).
Proof.
  induction pSl as [|p pSl IH]; intros m Hlookup; [by left|].
  rewrite nestedPermissions_cons in Hlookup.
  apply IH in Hlookup as [Hm|(Hne & q & Hq & Hs & Ha)].
  - destruct (bool_decide (Permission.Alias p = "")) eqn:Halias; simpl in Hm;
      [by left|].
    apply bool_decide_eq_false in Halias.
    destruct (decide (Permission.String p = s)) as [<-|Hs].
    + rewrite lookup_insert_eq in Hm. injection Hm as <-.
      right. split; [done|]. exists p. split_and!; [by left | done..].
    + rewrite lookup_insert_ne in Hm by done. by left.
  - right. split; [done|]. exists q. split_and!; [by right | done..].
Qed.

(** With no two permissions of the same string, the entry of a permission
    is its alias, and there is none when its alias is empty. *)
Lemma nestedPermissions_lookup (pSl : list Permission.t) :
  ∀ (m : gmap string string) (p : Permission.t),
    NoDup (map Permission.String pSl) →
    p ∈ pSl →
    snd (nestedPermissions pSl m) !! Permission.String p
    = if bool_decide (Permission.Alias p = "")
      then m !! Permission.String p
      else Some (Permission.Alias p).
Proof.
  induction pSl as [|q pSl IH]; intros m p Hnodup Hin;
    [by apply elem_of_nil in Hin|].
  rewrite nestedPermissions_cons.
  simpl in Hnodup. apply NoDup_cons in Hnodup as [Hfresh Hnodup].
  apply elem_of_cons in Hin as [->|Hin].
  - rewrite nestedPermissions_other by done.
    destruct (bool_decide (Permission.Alias q = "")); simpl; [done|].
    by rewrite lookup_insert_eq.
  - rewrite IH by done.
    destruct (bool_decide (Permission.Alias p = "")); [|done].
    destruct (negb _); [|done].
    rewrite lookup_insert_ne; [done|].
    intros Heq. apply Hfresh. rewrite Heq.
    apply list_elem_of_fmap. by exists p.
Qed.

Lemma applyAliases_restores (aliases : gmap string string)
  (pSl : list Permission.t) :
  (∀ p, p ∈ pSl →
        aliases !! Permission.String p
        = if bool_decide (Permission.Alias p = "") then None
          else Some (Permission.Alias p)) →
  applyAliases aliases (map Permission.String pSl) (map noAlias pSl) = pSl.
Proof.
  induction pSl as [|p pSl IH]; intros Hall; [done|]. simpl.
  rewrite IH by (intros q Hq; apply Hall; by right).
  rewrite (Hall p) by (by left).
  destruct (bool_decide (Permission.Alias p = "")) eqn:Halias.
  - apply bool_decide_eq_true in Halias. f_equal.
    destruct p; simpl in *. by subst.
  - f_equal. by destruct p.
Qed.

Section Nested.
Variable sas : serviceAccounts.
Variable Roles_ForServiceAccountID : string → Store → outcome (list Role.t).
Variable serviceAccountID : string.
Variable st : Store.
Variable sa : ServiceAccount.t.
Variable pSl : list Permission.t.
Variable bindings : list Role.t.
Hypothesis Haccount :
  ServiceAccounts_Get (repo sas) serviceAccountID st = Ok sa.
Hypothesis Hpermissions :
  Permissions_ForRole (repo sas) (ServiceAccount.BaseRoleID sa) st = Ok pSl.
Hypothesis Hroles : Roles_ForServiceAccountID serviceAccountID st = Ok bindings.

Lemma GetWithNested_ok :
  GetWithNested sas Roles_ForServiceAccountID serviceAccountID st
  = (Ok (mkSawn (ServiceAccount.ID sa) (ServiceAccount.Name sa)
           (ServiceAccount.Email sa) (ServiceAccount.Picture sa)
           (map Permission.String pSl) (snd (nestedPermissions pSl ∅))
           [] [] bindings (ServiceAccount.AuthenticationType sa)), st).
Proof.
  unfold GetWithNested. unfold_go. rewrite Haccount, Hpermissions.
  pose proof (nestedPermissions_strings pSl ∅) as Hstrs.
  destruct (nestedPermissions pSl ∅) as [strs aliases]. simpl in *.
  rewrite Hroles. by subst strs.
Qed.
End Nested.

(** [GetWithNested] returns the account with the permissions of its base
    role as strings, in order, and the roles bound to it; its aliases map
    holds no empty alias, and each entry is the alias of a permission of
    the base role with that string.  The store is only read. *)
Theorem GetWithNested_result (sas : serviceAccounts)
  (Roles_ForServiceAccountID : string → Store → outcome (list Role.t))
  (serviceAccountID : string) (st : Store) (sa : ServiceAccount.t)
  (pSl : list Permission.t) (bindings : list Role.t) :
  ServiceAccounts_Get (repo sas) serviceAccountID st = Ok sa →
  Permissions_ForRole (repo sas) (ServiceAccount.BaseRoleID sa) st = Ok pSl →
  Roles_ForServiceAccountID serviceAccountID st = Ok bindings →
  ∃ sawn,
    GetWithNested sas Roles_ForServiceAccountID serviceAccountID st
    = (Ok sawn, st)
    ∧ ID sawn = ServiceAccount.ID sa
    ∧ Name sawn = ServiceAccount.Name sa
    ∧ Email sawn = ServiceAccount.Email sa
    ∧ Picture sawn = ServiceAccount.Picture sa
    ∧ AuthenticationType sawn = ServiceAccount.AuthenticationType sa
    ∧ Roles sawn = bindings
    ∧ PermissionsStrings sawn = map Permission.String pSl
    ∧ (∀ s a, PermissionsAliases sawn !! s = Some a →
              a ≠ "" ∧ ∃ p, p ∈ pSl ∧ Permission.String p = s
                            ∧ Permission.Alias p = a).
Proof.
  intros Haccount Hpermissions Hroles. eexists. split.
  - by apply GetWithNested_ok.
  - split_and!; try done. simpl. intros s a Hlookup.
    by apply nestedPermissions_sound in Hlookup as [?|?].
Qed.

(** What [GetWithNested] returns can be sent back: when no two
    permissions of the base role have the same string, the alias loop of
    the handlers, run with the strings and the aliases map that were
    returned on the permissions without their aliases, gives every
    permission its alias back. *)
Theorem GetWithNested_aliases_round_trip (sas : serviceAccounts)
  (Roles_ForServiceAccountID : string → Store → outcome (list Role.t))
  (serviceAccountID : string) (st : Store) (sa : ServiceAccount.t)
  (pSl : list Permission.t) (bindings : list Role.t)
  (sawn : ServiceAccountWithNested) :
  ServiceAccounts_Get (repo sas) serviceAccountID st = Ok sa →
  Permissions_ForRole (repo sas) (ServiceAccount.BaseRoleID sa) st = Ok pSl →
  Roles_ForServiceAccountID serviceAccountID st = Ok bindings →
  NoDup (map Permission.String pSl) →
  GetWithNested sas Roles_ForServiceAccountID serviceAccountID st
  = (Ok sawn, st) →
  applyAliases (PermissionsAliases sawn) (PermissionsStrings sawn)
               (map noAlias pSl)
  = pSl.
Proof.
  intros Haccount Hpermissions Hroles Hnodup.
  rewrite (GetWithNested_ok sas _ _ _ _ _ _ Haccount Hpermissions Hroles).
  intros [= <-]. simpl.
  apply applyAliases_restores. intros p Hp.
  rewrite nestedPermissions_lookup by done.
  by destruct (bool_decide (Permission.Alias p = "")).
Qed.

Lemma readOnly_GetWithNested (sas : serviceAccounts)
  (Roles_ForServiceAccountID : string → Store → outcome (list Role.t))
  (serviceAccountID : string) :
  readOnly (GetWithNested sas Roles_ForServiceAccountID serviceAccountID).
Proof.
  unfold GetWithNested.
  apply readOnly_bind; [auto with readonly|]. intros sa.
  apply readOnly_bind; [auto with readonly|]. intros pSl.
  destruct (nestedPermissions pSl ∅) as [strs aliases].
  apply readOnly_bind; [auto with readonly|]. intros roles.
  auto with readonly.
Qed.

(** The get handler never writes; it answers 200 with the marshalled
    account when the three reads and the marshalling succeed, and 500 when
    the account cannot be read, an unknown id included. *)
Theorem get_handler_status (sasUC : serviceAccounts)
  (Roles_ForServiceAccountID : string → Store → outcome (list Role.t))
  (Marshal : ServiceAccountWithNested → outcome string)
  (r : Request) (st : Store) :
  snd (serviceAccountsGetHandler sasUC Roles_ForServiceAccountID Marshal r st)
  = st
  ∧ (∀ e, ServiceAccounts_Get (repo sasUC) (routeID r) st = Err e →
          serviceAccountsGetHandler sasUC Roles_ForServiceAccountID Marshal r st
          = (Responded (WriteHeader StatusInternalServerError newWriter),
             None, st))
  ∧ (∀ sawn bts,
       GetWithNested sasUC Roles_ForServiceAccountID (routeID r) st
       = (Ok sawn, st) →
       Marshal sawn = Ok bts →
       serviceAccountsGetHandler sasUC Roles_ForServiceAccountID Marshal r st
       = (Responded (WriteHeader StatusOK newWriter), Some bts, st)).
Proof.
  split_and!.
  - pose proof (readOnly_GetWithNested sasUC Roles_ForServiceAccountID
                  (routeID r) st) as Hro.
    unfold serviceAccountsGetHandler.
    destruct (GetWithNested _ _ _ _) as [[sawn|e|msg] st1]; simpl in *;
      [|done..].
    by destruct (Marshal sawn).
  - intros e Hget. unfold serviceAccountsGetHandler, GetWithNested.
    unfold bind at 1. unfold read at 1. by rewrite Hget.
  - intros sawn bts Hget Hmarshal. unfold serviceAccountsGetHandler.
    by rewrite Hget, Hmarshal.
Qed.

(** ** Checking permission strings *)

Lemma buildEach_all (strs : list string) (ps : list Permission.t) :
  Forall2 (fun str p => BuildPermission str = Ok p) strs ps →
  buildEach strs = Ok ps.
Proof.
  induction 1 as [|str p strs ps Hp _ IH]; simpl; [done|].
  by rewrite Hp, IH.
Qed.

Lemma buildEach_first_error (good rest : list string) (bad : string)
  (ps : list Permission.t) (e : error) :
  Forall2 (fun str p => BuildPermission str = Ok p) good ps →
  BuildPermission bad = Err e →
  buildEach (good ++ bad :: rest) = Err e.
Proof.
  intros Hgood Hbad.
  induction Hgood as [|str p strs ps Hp _ IH]; simpl.
  - by rewrite Hbad.
  - by rewrite Hp, IH.
Qed.

(** [HasPermissionsStrings] answers with one boolean per string, in order,
    each the presence of the permission built from the string among the
    permissions of the account; the first string that cannot be built
    fails the whole call with its error, before the storage is read. *)
Theorem HasPermissionsStrings_result (sas : serviceAccounts)
  (serviceAccountID : string) (strs : list string) (st : Store) :
  (∀ ps held,
     Forall2 (fun str p => BuildPermission str = Ok p) strs ps →
     Permissions_ForServiceAccount (repo sas) serviceAccountID st = Ok held →
     HasPermissionsStrings sas serviceAccountID strs st
     = (Ok (map (fun p => Permission.IsPresent p held) ps), st)
     ∧ length (map (fun p => Permission.IsPresent p held) ps) = length strs)
  ∧ (∀ good bad rest ps e,
       strs = good ++ bad :: rest →
       Forall2 (fun str p => BuildPermission str = Ok p) good ps →
       BuildPermission bad = Err e →
       HasPermissionsStrings sas serviceAccountID strs st = (Err e, st)).
Proof.
  split.
  - intros ps held Hps Hheld. split.
    + unfold HasPermissionsStrings. unfold bind at 1. unfold read at 1.
      rewrite (buildEach_all _ _ Hps). by apply HasPermissions_ok.
    + rewrite length_map. symmetry. by eapply Forall2_length.
  - intros good bad rest ps e -> Hgood Hbad.
    unfold HasPermissionsStrings, bind, read.
    by rewrite (buildEach_first_error _ _ _ _ _ Hgood Hbad).
Qed.

(** ** The relational store meets the contract of the creation *)

Lemma PG_create_contract : CreateContract PG.repo.
Proof.
  split.
  - intros r r' st st'. simpl. unfold PG.CreateRole, PG.storageError.
    destruct (idSupply st) as [|id supply]; [done|].
    destruct (existsb _ _); [done|]. by intros [= _ <-].
  - intros sa st st'. simpl. unfold PG.CreateAccount, PG.storageError.
    destruct (existsb _ _); [done|].
    destruct (_ && _); [done|]. by intros [= <-].
Qed.

(** ** More statements at the scenarios *)

(** The lender authenticates with its key pair. *)
Lemma next_has_identity_witness :
  ∃ id,
    withServiceAccountID "sa-lender" (headerRequest "KeyPair k1:s1")
    = withServiceAccountID id (headerRequest "KeyPair k1:s1")
    ∧ ((∃ keyID keySecret name,
          uc_AuthenticateKeyPair (authUseCases (pgSas noProvider) someEntropy)
            keyID keySecret lenderStore
          = (Ok (AccessKeyPairAuth.mk id name), lenderStore)
          ∧ Header_Set "x-service-account-name" "lender" newWriter
            = Header_Set "x-service-account-name" name newWriter)
       ∨ (∃ accessToken a,
            uc_AuthenticateAccessToken
              (authUseCases (pgSas noProvider) someEntropy) accessToken
              lenderStore
            = (Ok a, lenderStore)
            ∧ AccessTokenAuth.ServiceAccountID a = id
            ∧ Header_Set "x-service-account-name" "lender" newWriter
              = bearerWriter accessToken a)).
Proof.
  apply (authMiddleware_next_has_identity
           (authUseCases (pgSas noProvider) someEntropy)
           (headerRequest "KeyPair k1:s1")
           (withServiceAccountID "sa-lender" (headerRequest "KeyPair k1:s1"))
           lenderStore lenderStore
           (Header_Set "x-service-account-name" "lender" newWriter)).
  by vm_compute.
Defined.

(** A bearer of a token that the provider does not know. *)
Lemma bearer_witness :
  authMiddleware (authUseCases (pgSas noProvider) someEntropy)
    (headerRequest "Bearer abc") lenderStore
  = (Responded (WriteHeader StatusInternalServerError newWriter), lenderStore).
Proof.
  rewrite (authMiddleware_bearer (authUseCases (pgSas noProvider) someEntropy)
             (headerRequest "Bearer abc") lenderStore "abc" eq_refl eq_refl).
  reflexivity.
Defined.

(** The key pair of the lender, followed by a colon and more, and a
    credential without a colon. *)
Lemma key_pair_witness :
  authMiddleware (authUseCases (pgSas noProvider) someEntropy)
    (headerRequest "KeyPair k1:s1:more") lenderStore
  = (CalledNext (Header_Set "x-service-account-name" "lender" newWriter)
       (withServiceAccountID "sa-lender" (headerRequest "KeyPair k1:s1:more")),
     lenderStore)
  ∧ authMiddleware (authUseCases (pgSas noProvider) someEntropy)
      (headerRequest "KeyPair k1") lenderStore
    = (Crashed "index out of range", lenderStore).
Proof.
  split.
  - rewrite (proj1 (authMiddleware_key_pair
                      (authUseCases (pgSas noProvider) someEntropy)
                      (headerRequest "KeyPair k1:s1:more") lenderStore)
                   "k1" "s1:more" eq_refl eq_refl eq_refl eq_refl).
    reflexivity.
  - apply (proj2 (authMiddleware_key_pair
                    (authUseCases (pgSas noProvider) someEntropy)
                    (headerRequest "KeyPair k1") lenderStore)
                 "k1" eq_refl eq_refl eq_refl).
Defined.

Lemma first_field_witness :
  william.accessTokenFromHeader (headerRequest "abc") = "abc"
  ∧ william.accessTokenFromHeader (headerRequest " abc") = "".
Proof.
  split.
  - apply (proj1 (proj2 (proj2 (accessTokenFromHeader_first_field
                                  (headerRequest "abc"))))).
    reflexivity.
  - apply (proj2 (proj2 (proj2 (accessTokenFromHeader_first_field
                                  (headerRequest " abc"))))).
    right. by exists "abc".
Defined.

Lemma requires_first_field_witness :
  william.ServeHTTP iam guard newWriter (headerRequest "")
  = (Responded (WriteHeader StatusUnauthorized newWriter), []).
Proof.
  apply ServeHTTP_requires_first_field; [reflexivity | by left].
Defined.

Lemma outbound_witness :
  snd (william.ServeHTTP iam guard newWriter (headerRequest "Bearer abc"))
  = [william.mkOutRequest "GET"
       "http://localhost:4040/permissions/has?permission=service::RL::Action::*"
       "Bearer"]
  ∧ william.enabled guard = true
  ∧ "GET" = "GET"
  ∧ "http://localhost:4040/permissions/has?permission=service::RL::Action::*"
    = (william.iamURL guard ++ "/permissions/has?permission="
       ++ william.QueryEscape iam
            (william.build (william.perm guard)
               (headerRequest "Bearer abc")))%string
  ∧ "Bearer" = upTo " "%char "Bearer abc"
  ∧ hasChar " "%char "Bearer" = false.
Proof.
  apply (ServeHTTP_outbound iam guard newWriter (headerRequest "Bearer abc")
           (william.mkOutRequest "GET"
              "http://localhost:4040/permissions/has?permission=service::RL::Action::*"
              "Bearer")).
  vm_compute. by left.
Defined.

(** A disabled middleware calls the next handler, and a Will.IAM that
    cannot be reached. *)
Lemma next_only_when_granted_witness :
  (headerRequest "Bearer abc" = headerRequest "Bearer abc"
   ∧ ((william.enabled
         (william.NewMiddleware defaultConfig "RL" "Action" (fun _ => "*"))
       = false
       ∧ newWriter = newWriter)
      ∨ ∃ req res,
          snd (william.ServeHTTP iam
                 (william.NewMiddleware defaultConfig "RL" "Action"
                    (fun _ => "*"))
                 newWriter (headerRequest "Bearer abc"))
          = [req]
          ∧ william.Do iam req = Ok res
          ∧ william.StatusCode res = StatusOK))
  ∧ fst (william.ServeHTTP unreachable guard newWriter
           (headerRequest "Bearer abc"))
    = Responded (WriteHeader StatusInternalServerError newWriter).
Proof.
  split.
  - apply (proj1 (ServeHTTP_next_only_when_granted iam
                    (william.NewMiddleware defaultConfig "RL" "Action"
                       (fun _ => "*"))
                    newWriter (headerRequest "Bearer abc"))
                 newWriter (headerRequest "Bearer abc")).
    reflexivity.
  - apply (proj2 (ServeHTTP_next_only_when_granted unreachable guard newWriter
                    (headerRequest "Bearer abc"))).
    + reflexivity.
    + by vm_compute.
    + right. by eexists.
Defined.

Lemma settings_witness :
  william.iamURL (william.NewMiddleware defaultConfig "RL" "Action"
                    (fun _ => "*"))
  = "http://localhost:4040"
  ∧ william.Service
      (william.perm (william.NewMiddleware defaultConfig "RL" "Action"
                       (fun _ => "*")))
    = "service".
Proof.
  destruct (NewMiddleware_settings defaultConfig "RL" "Action" (fun _ => "*"))
    as (_ & _ & _ & _ & Hurl & _ & Hservice & _).
  split; [by apply Hurl | by apply Hservice].
Defined.

(** The account [sa-a] lends what it owns. *)
Lemma process_accepts_witness :
  processServiceAccountWithNestedFromReq ownedGrantRequest (pgSas noProvider)
    aliasedStore
  = (Ok (sawn_setPermissions
           [Permission.mk "" "svc" OwnershipLevel.Lender "act" "res" "lent"]
           ownedGrant), aliasedStore).
Proof.
  apply (process_accepts_iff (pgSas noProvider) ownedGrantRequest aliasedStore
           ownedGrant _
           [Permission.mk "role-a" "svc" OwnershipLevel.Owner "act" "res"
                          "the resource";
            Permission.mk "role-a" "svc" OwnershipLevel.Lender "act" "*" ""]
           []).
  - reflexivity.
  - reflexivity.
  - constructor.
  - split; [by intros p ?%elem_of_nil|].
    exists [Permission.mk "" "svc" OwnershipLevel.Lender "act" "res" ""].
    split_and!; [reflexivity | | reflexivity].
    intros p ->%list_elem_of_singleton. reflexivity.
Defined.

Lemma empty_grant_witness :
  processServiceAccountWithNestedFromReq namelessRequest (pgSas noProvider)
    lenderStore
  = (Ok (sawn_setPermissions []
           (mkSawn "" "" "" "" [] ∅ [] [] [] AuthenticationTypes.KeyPair)),
     lenderStore).
Proof.
  apply (process_accepts_empty_grant (pgSas noProvider) namelessRequest
           lenderStore _ [lenderOfRes]); reflexivity.
Defined.

Lemma invalid_account_witness :
  serviceAccountsCreateHandler (pgSas noProvider) someEntropy namelessRequest
    lenderStore
  = (Responded (WriteHeader StatusUnprocessableEntity newWriter), lenderStore)
  ∧ serviceAccountsUpdateHandler (pgSas noProvider) namelessRequest lenderStore
    = (Responded (WriteHeader StatusUnprocessableEntity newWriter),
       lenderStore).
Proof.
  apply (invalid_account_is_422 (pgSas noProvider) someEntropy namelessRequest
           lenderStore
           (mkSawn "" "" "" "" [] ∅ [] [] [] AuthenticationTypes.KeyPair)).
  - reflexivity.
  - by left.
Defined.

(** A request without a body, and one with a permission string of three
    fields. *)
Lemma undecodable_witness :
  serviceAccountsCreateHandler (pgSas noProvider) someEntropy
    (headerRequest "KeyPair k1:s1") lenderStore
  = (Responded (WriteHeader StatusInternalServerError newWriter), lenderStore)
  ∧ serviceAccountsUpdateHandler (pgSas noProvider) malformedRequest
      lenderStore
    = (Responded (WriteHeader StatusInternalServerError newWriter),
       lenderStore).
Proof.
  split.
  - apply (proj1 (undecodable_request_is_500 (pgSas noProvider) someEntropy
                    (headerRequest "KeyPair k1:s1") lenderStore)
                 (OtherError "no body")); [reflexivity | done].
  - apply (proj2 (undecodable_request_is_500 (pgSas noProvider) someEntropy
                    malformedRequest lenderStore)
                 (mkSawn "" "robot" "" "" ["svc::Lender::act"] ∅ [] [] []
                         AuthenticationTypes.KeyPair)
                 [lenderOfRes] [] "svc::Lender::act").
    + reflexivity.
    + reflexivity.
    + constructor.
    + by intros p ?%elem_of_nil.
    + reflexivity.
Defined.

(** The refused request of the lender wrote nothing. *)
Lemma write_only_on_success_witness :
  snd (serviceAccountsCreateHandler (pgSas noProvider) someEntropy
         escalationRequest lenderStore)
  = lenderStore.
Proof.
  apply (proj1 (handlers_write_only_on_success (pgSas noProvider) someEntropy
                  escalationRequest lenderStore)).
  by vm_compute.
Defined.

Lemma invalid_type_witness :
  CreateWithNested (pgSas noProvider) someEntropy
    (mkSawn "" "robot" "" "" [] ∅ [] [] [] "password") lenderStore
  = (Panic "invalid memory address or nil pointer dereference", lenderStore).
Proof.
  apply CreateWithNested_invalid_type_panics. reflexivity.
Defined.

(** A key-pair account is created in the store of the lender. *)
Lemma Create_witness :
  role_bindings
    (snd (Create (pgSas noProvider) someEntropy
            (BuildKeyPairServiceAccount someEntropy "robot") lenderStore))
  = role_bindings lenderStore ++ [RoleBinding.mk "sa-new" "role-1"]
  ∧ bound
      (snd (Create (pgSas noProvider) someEntropy
              (BuildKeyPairServiceAccount someEntropy "robot") lenderStore))
      "sa-new" "role-1"
    = true.
Proof.
  destruct (Create_binds_base_role PG.repo noProvider someEntropy
              (BuildKeyPairServiceAccount someEntropy "robot")
              (ServiceAccount.mk "sa-new" "robot" "key-id" "key-secret" "" ""
                 "role-1" AuthenticationTypes.KeyPair)
              lenderStore
              (snd (Create (pgSas noProvider) someEntropy
                      (BuildKeyPairServiceAccount someEntropy "robot")
                      lenderStore))
              PG_contract PG_create_contract eq_refl)
    as (_ & _ & Hrows & Hbound).
  split; [exact Hrows | exact Hbound].
Defined.

(** The account [sa-a] creates the account it lends to, bound to the role
    of the lender as well. *)
Lemma CreateWithNested_witness :
  ∃ base,
    role_bindings
      (snd (CreateWithNested (pgSas noProvider) someEntropy
              (mkSawn "ignored" "robot" "" "" [] ∅ [grant "a"] ["role-a"] []
                      AuthenticationTypes.KeyPair)
              aliasedStore))
    = role_bindings aliasedStore
      ++ [RoleBinding.mk "sa-new" base; RoleBinding.mk "sa-new" "role-a"].
Proof.
  destruct (CreateWithNested_result PG.repo noProvider someEntropy
              (mkSawn "ignored" "robot" "" "" [] ∅ [grant "a"] ["role-a"] []
                      AuthenticationTypes.KeyPair)
              (mkSawn "sa-new" "robot" "" "" [] ∅
                      [Permission.setRoleID "role-9" (grant "a")] ["role-a"]
                      [] AuthenticationTypes.KeyPair)
              aliasedStore
              (snd (CreateWithNested (pgSas noProvider) someEntropy
                      (mkSawn "ignored" "robot" "" "" [] ∅ [grant "a"]
                              ["role-a"] [] AuthenticationTypes.KeyPair)
                      aliasedStore))
              PG_contract PG_create_contract eq_refl)
    as (base & _ & Hrows & _).
  exists base. exact Hrows.
Defined.

(** [old@x.com] logs in again, with a picture. *)
Lemma known_account_witness :
  ∃ st',
    AuthenticateAccessToken (pgSas returningToken) someEntropy "tok2"
      boundStore
    = (Ok (AccessTokenAuth.mk "sa-u" "tok2" "old@x.com"), st')
    ∧ length (service_accounts st') = length (service_accounts boundStore).
Proof.
  eexists. split.
  - apply (proj1 (proj2 (AuthenticateAccessToken_known_account
                           (pgSas returningToken) someEntropy "tok2"
                           (AuthResult.mk "tok2" "old@x.com"
                              "http://x.com/old.png")
                           (ServiceAccount.mk "sa-u" "old name" "k2" "s2"
                              "old@x.com" "" "role-u"
                              AuthenticationTypes.OAuth2)
                           boundStore eq_refl eq_refl))).
    + done.
    + done.
    + reflexivity.
  - reflexivity.
Defined.

(** The account [sa-a] is read back with its two permissions and the
    alias of the first. *)
Lemma GetWithNested_witness :
  ∃ sawn,
    GetWithNested (pgSas noProvider) boundRoles "sa-a" aliasedStore
    = (Ok sawn, aliasedStore)
    ∧ PermissionsStrings sawn = ["svc::Owner::act::res"; "svc::Lender::act::*"]
    ∧ PermissionsAliases sawn !! "svc::Owner::act::res" = Some "the resource"
    ∧ PermissionsAliases sawn !! "svc::Lender::act::*" = None.
Proof.
  destruct (GetWithNested_result (pgSas noProvider) boundRoles "sa-a"
              aliasedStore
              (ServiceAccount.mk "sa-a" "aliased" "k3" "s3" "" "" "role-a"
                 AuthenticationTypes.KeyPair)
              (permissions aliasedStore)
              [Role.mk "role-a" "service-account:sa-a" true]
              eq_refl eq_refl eq_refl)
    as (sawn & Hget & _ & _ & _ & _ & _ & _ & Hstrs & _).
  exists sawn. split; [exact Hget|]. split; [exact Hstrs|].
  rewrite (GetWithNested_ok (pgSas noProvider) boundRoles "sa-a" aliasedStore
             _ _ _ eq_refl eq_refl eq_refl) in Hget.
  injection Hget as <-. split; reflexivity.
Defined.

Lemma round_trip_witness :
  ∃ sawn,
    GetWithNested (pgSas noProvider) boundRoles "sa-a" aliasedStore
    = (Ok sawn, aliasedStore)
    ∧ applyAliases (PermissionsAliases sawn) (PermissionsStrings sawn)
        (map noAlias (permissions aliasedStore))
      = permissions aliasedStore.
Proof.
  eexists. split; [reflexivity|].
  apply (GetWithNested_aliases_round_trip (pgSas noProvider) boundRoles "sa-a"
           aliasedStore
           (ServiceAccount.mk "sa-a" "aliased" "k3" "s3" "" "" "role-a"
              AuthenticationTypes.KeyPair)
           (permissions aliasedStore)
           [Role.mk "role-a" "service-account:sa-a" true]).
  - reflexivity.
  - reflexivity.
  - reflexivity.
  - apply NoDup_cons. split.
    + intros Hin. apply list_elem_of_singleton in Hin. discriminate.
    + apply NoDup_singleton.
  - reflexivity.
Defined.

(** An id that no account has. *)
Lemma get_handler_witness :
  serviceAccountsGetHandler (pgSas noProvider) boundRoles someMarshal
    (mkRequest "" (Err (OtherError "no body")) "nobody" None) aliasedStore
  = (Responded (WriteHeader StatusInternalServerError newWriter), None,
     aliasedStore).
Proof.
  apply (proj1 (proj2 (get_handler_status (pgSas noProvider) boundRoles
                         someMarshal
                         (mkRequest "" (Err (OtherError "no body")) "nobody"
                                    None)
                         aliasedStore))
               EntityNotFoundError).
  reflexivity.
Defined.

(** What the lender has of three permissions, and a list whose second
    string has three fields. *)
Lemma HasPermissionsStrings_witness :
  HasPermissionsStrings (pgSas noProvider) "sa-lender"
    ["svc::Lender::act::res"; "svc::Owner::act::res"] lenderStore
  = (Ok [true; false], lenderStore)
  ∧ HasPermissionsStrings (pgSas noProvider) "sa-lender"
      ["svc::Lender::act::res"; "svc::Lender::act"; "svc::Owner::act::res"]
      lenderStore
    = (Err (MalformedPermissionError "svc::Lender::act"), lenderStore).
Proof.
  split.
  - apply (proj1 (HasPermissionsStrings_result (pgSas noProvider) "sa-lender"
                    ["svc::Lender::act::res"; "svc::Owner::act::res"]
                    lenderStore)
                 [Permission.mk "" "svc" OwnershipLevel.Lender "act" "res" "";
                  ownerOfRes]
                 [lenderOfRes]).
    + repeat constructor.
    + reflexivity.
  - apply (proj2 (HasPermissionsStrings_result (pgSas noProvider) "sa-lender"
                    ["svc::Lender::act::res"; "svc::Lender::act";
                     "svc::Owner::act::res"]
                    lenderStore)
                 ["svc::Lender::act::res"] "svc::Lender::act"
                 ["svc::Owner::act::res"]
                 [Permission.mk "" "svc" OwnershipLevel.Lender "act" "res" ""]).
    + reflexivity.
    + repeat constructor.
    + reflexivity.
Defined.
